(** * devconnect: the posts API and its token middleware

    A shallow embedding of [middleware/auth.js] and [routes/api/posts.js]
    (the full router, with the like, unlike and comment endpoints).

    Requests are handled one at a time.  A handler is a function from the
    request and the state of the world (the two document collections, the
    ObjectId generator, the clock and a log of the store operations issued
    so far) to the response it sends and the new state of the world.  Code
    inside a [try] block lives in a small state-and-exception monad; the
    [catch] block turns an exception into a response. *)

From Stdlib Require Import ZArith String List.
From stdpp Require Import base tactics option list sorting strings.
Import ListNotations.

Local Open Scope string_scope.
Local Open Scope list_scope.
Local Open Scope Z_scope.

(** ** Documents *)

(** [req.user]: the payload field the token carries, an object with an [id]. *)
Record Identity := { id : string }.

(** Modelled from the spec: the User, Like, Comment and Post documents
    (models/User.js and models/Post.js are not part of the sources; the
    fields are those of the spec's data model and those the router reads
    and writes).  ObjectIds are kept as the strings [toString()] gives. *)
Record User := {
  user_id : string;
  user_name : string;
  user_avatar : string;
}.

Record Like := { like_user : string }.

Record Comment := {
  comment_id : string;
  comment_user : string;
  comment_name : string;
  comment_avatar : string;
  comment_text : string;
  comment_date : Z;
}.

Record Post := {
  post_id : string;
  post_user : string;
  post_name : string;
  post_avatar : string;
  post_text : string;
  post_date : Z;
  likes : list Like;
  comments : list Comment;
}.

Definition set_likes (p : Post) (ls : list Like) : Post :=
  {| post_id := post_id p; post_user := post_user p; post_name := post_name p;
     post_avatar := post_avatar p; post_text := post_text p;
     post_date := post_date p; likes := ls; comments := comments p |}.

Definition set_comments (p : Post) (cs : list Comment) : Post :=
  {| post_id := post_id p; post_user := post_user p; post_name := post_name p;
     post_avatar := post_avatar p; post_text := post_text p;
     post_date := post_date p; likes := likes p; comments := cs |}.

(** ** Requests and responses *)

Record Request := {
  header_x_auth_token : option string;  (* req.header('x-auth-token') *)
  params_id : string;                   (* req.params.id *)
  params_comment_id : string;           (* req.params.comment_id *)
  body_text : option string;            (* req.body.text *)
  req_user : option Identity;           (* req.user, undefined at first *)
}.

Definition set_req_user (req : Request) (u : option Identity) : Request :=
  {| header_x_auth_token := header_x_auth_token req;
     params_id := params_id req;
     params_comment_id := params_comment_id req;
     body_text := body_text req;
     req_user := u |}.

Inductive Body :=
| JsonMsg (msg : string)                (* { msg: ... } *)
| JsonErrors (errs : list string)       (* { errors: [...] } *)
| JsonPost (p : Post)
| JsonPosts (ps : list Post)
| JsonLikes (ls : list Like)
| JsonComments (cs : list Comment)
| Text (s : string).                    (* res.send('...') *)

Record Response := { status : Z; body : Body }.

(** [res.status(c).json(b)], and [res.json(b)] with the default status. *)
Definition res_status_json (c : Z) (b : Body) : Response :=
  {| status := c; body := b |}.
Definition res_json (b : Body) : Response := res_status_json 200 b.
Definition server_error : Response := {| status := 500; body := Text "Server Error" |}.
Definition not_found : Response :=
  {| status := 404; body := JsonMsg "post not found" |}.

(** ** JavaScript arrays *)

(** [xs.indexOf(x)]: the first position of [x], or -1. *)
Fixpoint indexOf (xs : list string) (x : string) : Z :=
  match xs with
  | [] => -1
  | y :: ys =>
      if String.eqb y x then 0
      else let i := indexOf ys x in if i <? 0 then -1 else i + 1
  end.

(** [xs.splice(start, count)]: the array that is left.  A negative [start]
    counts from the end; the start is clamped to the array. *)
Definition splice {A} (start : Z) (count : nat) (xs : list A) : list A :=
  let len := Z.of_nat (length xs) in
  let from := if start <? 0 then Z.max (len + start) 0 else Z.min start len in
  let k := Z.to_nat from in
  take k xs ++ drop (k + count) xs.

(** [xs.unshift(x)]. *)
Definition unshift {A} (x : A) (xs : list A) : list A := x :: xs.

(** [(xs.length = n)]: an assignment; it truncates [xs] and has the value [n]. *)
Definition assign_length {A} (xs : list A) (n : nat) : list A * Z :=
  (take n xs, Z.of_nat n).

(** A number used as a condition. *)
Definition truthy (n : Z) : bool := negb (n =? 0).

(** ** The world *)

Inductive StoreOp :=
| ReadPost (i : string)
| ReadAllPosts
| ReadUser (i : string)
| InsertPost (i : string)
| UpdatePost (i : string)
| RemovePost (i : string).

Record World := {
  posts : list Post;        (* the posts collection, in insertion order *)
  users : list User;        (* the users collection *)
  next_oid : nat;           (* how many ObjectIds were generated *)
  clock : Z;                (* Date.now() *)
  trace : list StoreOp;     (* store operations issued, the latest first *)
}.

Definition set_posts (w : World) (ps : list Post) : World :=
  {| posts := ps; users := users w; next_oid := next_oid w;
     clock := clock w; trace := trace w |}.

Definition log (op : StoreOp) (w : World) : World :=
  {| posts := posts w; users := users w; next_oid := next_oid w;
     clock := clock w; trace := op :: trace w |}.

Definition bump_oid (w : World) : World :=
  {| posts := posts w; users := users w; next_oid := S (next_oid w);
     clock := clock w; trace := trace w |}.

(** ** Exceptions and the monad of a [try] block *)

Inductive Exn :=
| CastError (kind : string)   (* mongoose: the id cannot be cast *)
| TypeError                   (* a property of null or undefined is read *)
| ValidationError             (* mongoose: the document does not fit its schema *)
| MongoError.                 (* the store refuses the write *)

(** [err.kind] *)
Definition kind_of (e : Exn) : option string :=
  match e with
  | CastError k => Some k
  | _ => None
  end.

Definition Async (A : Type) : Type := World -> (Exn + A) * World.

Definition ret {A} (a : A) : Async A := fun w => (inr a, w).
Definition throw {A} (e : Exn) : Async A := fun w => (inl e, w).
Definition bind {A B} (m : Async A) (k : A -> Async B) : Async B :=
  fun w =>
    match m w with
    | (inl e, w') => (inl e, w')
    | (inr a, w') => k a w'
    end.

Declare Scope async_scope.
Delimit Scope async_scope with async.
Notation "'await' x <- m ; k" := (bind m (fun x => k))
  (at level 10, x name, m at level 100, k at level 200,
   format "'[v' 'await'  x  <-  m ; '/' k ']'") : async_scope.
Local Open Scope async_scope.

(** [o.field] where [o] may be null or undefined. *)
Definition deref {A} (o : option A) : Async A :=
  match o with
  | Some a => ret a
  | None => throw TypeError
  end.

(** [try { m } catch (err) { h err }] *)
Definition try_catch (m : Async Response) (h : Exn -> Response)
  : World -> Response * World :=
  fun w =>
    match m w with
    | (inr r, w') => (r, w')
    | (inl e, w') => (h e, w')
    end.

(** The two [catch] blocks of the router. *)
Definition catch_500 (e : Exn) : Response := server_error.

Definition catch_404 (e : Exn) : Response :=
  match kind_of e with
  | Some k =>
      if String.eqb k "ObjectId"
      then res_status_json 404 (JsonMsg "post not found")
      else server_error
  | None => server_error
  end.

(** ** What the libraries do

    The libraries the two files call are not part of the sources: they are
    taken as parameters.  [is_object_id s] says that mongoose can cast [s] to
    an ObjectId, and [canonical s] is what [toString()] gives for that
    ObjectId: the spelling in which the store holds and prints ids (a string
    of hexadecimal digits casts whatever the case of its letters, and prints
    in lower case).  [new_object_id n] is the [n]-th ObjectId the process
    generates, as [toString()] gives it; [jwt_verify token secret] is
    [jwt.verify], with [None] for every way it can throw (bad signature,
    expired, malformed); [jwtToken] is [config.get('jwtToken')]. *)

Record Decoded := { decoded_user : option Identity }.  (* decoded.user *)

Class Externals := {
  is_object_id : string -> bool;
  canonical : string -> string;
  new_object_id : nat -> string;
  jwt_verify : string -> string -> option Decoded;
  jwtToken : string;
  canonical_new_object_id : forall n, canonical (new_object_id n) = new_object_id n;
}.

(** ** middleware/auth.js *)

Inductive Middleware :=
| Respond (r : Response)      (* the middleware answers the request *)
| Next (req : Request).       (* next() *)

Definition no_token : Response :=
  res_status_json 401 (JsonMsg " no token authrization denied").
Definition token_not_found : Response :=
  res_status_json 401 (JsonMsg "token is not found").

(** [!token] *)
Definition falsy_token (token : option string) : bool :=
  match token with
  | None => true
  | Some t => String.eqb t ""
  end.

Definition auth `{Externals} (req : Request) : Middleware :=
  let token := header_x_auth_token req in
  if falsy_token token then Respond no_token
  else
    match token with
    | None => Respond no_token
    | Some t =>
        match jwt_verify t jwtToken with
        | Some decoded => Next (set_req_user req (decoded_user decoded))
        | None => Respond token_not_found
        end
    end.

(** ** The store

    Every operation of the models leaves an entry in the trace. *)

Definition has_id (i : string) (p : Post) : bool := String.eqb (post_id p) i.

(** [Post.findById(i)]: [i] is cast to an ObjectId and the document with
    that ObjectId is looked for; a cast error for an id that is no ObjectId,
    null for an id no document has. *)
Definition Post_findById `{Externals} (i : string) : Async (option Post) :=
  fun w =>
    let w' := log (ReadPost i) w in
    if is_object_id i then (inr (List.find (has_id (canonical i)) (posts w)), w')
    else (inl (CastError "ObjectId"), w').

(** [User.findById(i).select('-password')].  The handlers call it with
    [req.user.id]; the id is looked up as it is written, which is how the
    store finds it when the token carries the id of a user as the store
    prints it. *)
Definition User_findById `{Externals} (i : string) : Async (option User) :=
  fun w =>
    let w' := log (ReadUser i) w in
    if is_object_id i
    then (inr (List.find (fun u => String.eqb (user_id u) i) (users w)), w')
    else (inl (CastError "ObjectId"), w').

(** The order of [sort({ date: -1 })]. *)
Definition newer_first (p q : Post) : Prop := post_date q <= post_date p.

#[global] Instance newer_first_dec p q : Decision (newer_first p q).
Proof. unfold newer_first. apply _. Defined.

(** [Post.find().sort({ date: -1 })] *)
Definition Post_find_sort_date : Async (list Post) :=
  fun w => (inr (merge_sort newer_first (posts w)), log ReadAllPosts w).

(** [new Post({ text, name, avatar, user })]: a fresh id, the creation
    date, no likes and no comments. *)
Definition new_Post `{Externals} (text name avatar user : string) : Async Post :=
  fun w =>
    (inr {| post_id := new_object_id (next_oid w); post_user := user;
            post_name := name; post_avatar := avatar; post_text := text;
            post_date := clock w; likes := []; comments := [] |},
     bump_oid w).

(** The subdocument mongoose makes of [{ text, name, avatar, user }] when it
    enters [post.comments]: it gets an id and the creation date. *)
Definition new_Comment `{Externals} (text name avatar user : string) : Async Comment :=
  fun w =>
    (inr {| comment_id := new_object_id (next_oid w); comment_user := user;
            comment_name := name; comment_avatar := avatar;
            comment_text := text; comment_date := clock w |},
     bump_oid w).

(** [newPost.save()] of a document that is new: an insert, which the store
    refuses when the id is taken. *)
Definition save_new (p : Post) : Async Post :=
  fun w =>
    let w' := log (InsertPost (post_id p)) w in
    if existsb (has_id (post_id p)) (posts w) then (inl MongoError, w')
    else (inr p, set_posts w' (posts w ++ [p])).

(** [post.save()] of a document that was fetched.  Mongoose validates the
    document first: [valid] says that what was added to it since it was
    fetched fits the schema.  A document that does not is rejected and
    nothing is sent to the store; otherwise the stored document with this id
    is replaced. *)
Definition save (valid : bool) (p : Post) : Async Post :=
  fun w =>
    if valid
    then
      (inr p,
       set_posts (log (UpdatePost (post_id p)) w)
         (map (fun q => if has_id (post_id p) q then p else q) (posts w)))
    else (inl ValidationError, w).

(** [post.remove()] *)
Definition remove (p : Post) : Async unit :=
  fun w =>
    (inr tt,
     set_posts (log (RemovePost (post_id p)) w)
       (List.filter (fun q => negb (has_id (post_id p) q)) (posts w))).

(** ** routes/api/posts.js *)

(** [check('text', 'Text is required').not().isEmpty()] and
    [validationResult(req).array()] *)
Definition validationResult (req : Request) : list string :=
  match body_text req with
  | Some t => if String.eqb t "" then ["Text is required"] else []
  | None => ["Text is required"]
  end.

Definition isEmpty {A} (xs : list A) : bool :=
  match xs with [] => true | _ => false end.

(** [req.body.text], once the validation has passed. *)
Definition text_of (req : Request) : string :=
  match body_text req with Some t => t | None => "" end.

Definition by_user (u : string) (l : Like) : bool := String.eqb (like_user l) u.

Section Handlers.
Context `{Externals}.

(** POST api/posts *)
Definition create_post (req : Request) : World -> Response * World :=
  let errors := validationResult req in
  if negb (isEmpty errors)
  then fun w => (res_status_json 400 (JsonErrors errors), w)
  else
    try_catch
      (await me <- deref (req_user req);
       await found <- User_findById (id me);
       await user <- deref found;
       await newPost <- new_Post (text_of req) (user_name user)
                                 (user_avatar user) (id me);
       await post <- save_new newPost;
       ret (res_json (JsonPost post)))
      catch_500.

(** GET api/posts *)
Definition list_posts (req : Request) : World -> Response * World :=
  try_catch
    (await all <- Post_find_sort_date;
     ret (res_json (JsonPosts all)))
    catch_500.

(** GET api/posts/:id *)
Definition get_post (req : Request) : World -> Response * World :=
  try_catch
    (await post <- Post_findById (params_id req);
     match post with
     | None => ret (res_status_json 404 (JsonMsg "post not found"))
     | Some p => ret (res_json (JsonPost p))
     end)
    catch_404.

(** DELETE api/posts/:id *)
Definition delete_post (req : Request) : World -> Response * World :=
  try_catch
    (await post <- Post_findById (params_id req);
     match post with
     | None => ret (res_status_json 404 (JsonMsg "post not found"))
     | Some p =>
         await me <- deref (req_user req);
         if negb (String.eqb (post_user p) (id me))
         then ret (res_status_json 401 (JsonMsg "User not autherized"))
         else
           await _ <- remove p;
           ret (res_json (JsonMsg "post removed"))
     end)
    catch_404.

(** PUT api/posts/like/:id.  The object [{ user: req.user.id }] becomes a
    subdocument of the post: its [user] is cast to an ObjectId, and the
    document is valid when that cast succeeds.  The test before it compares
    what the stored likes print with [req.user.id] as it is written. *)
Definition like_post (req : Request) : World -> Response * World :=
  try_catch
    (await found <- Post_findById (params_id req);
     await post <- deref found;
     await me <- deref (req_user req);
     if 0 <? Z.of_nat (length (List.filter (by_user (id me)) (likes post)))
     then ret (res_status_json 400 (JsonMsg "post already liked"))
     else
       let like := {| like_user := canonical (id me) |} in
       let post' := set_likes post (unshift like (likes post)) in
       await _ <- save (is_object_id (id me)) post';
       ret (res_json (JsonLikes (likes post'))))
    catch_500.

(** PUT api/posts/unlike/:id.  The condition of the first [if] is the
    assignment [(... .length = 0)], whose value is the number assigned. *)
Definition unlike_post (req : Request) : World -> Response * World :=
  try_catch
    (await found <- Post_findById (params_id req);
     await post <- deref found;
     await me <- deref (req_user req);
     if truthy (snd (assign_length (List.filter (by_user (id me)) (likes post)) 0))
     then ret (res_status_json 400 (JsonMsg "post has not yet been liked"))
     else
       let removeIndex := indexOf (map like_user (likes post)) (id me) in
       let post' := set_likes post (splice removeIndex 1 (likes post)) in
       await _ <- save true post';
       ret (res_json (JsonLikes (likes post'))))
    catch_500.

(** POST api/posts/comment/:id *)
Definition add_comment (req : Request) : World -> Response * World :=
  let errors := validationResult req in
  if negb (isEmpty errors)
  then fun w => (res_status_json 400 (JsonErrors errors), w)
  else
    try_catch
      (await me <- deref (req_user req);
       await found_user <- User_findById (id me);
       await found <- Post_findById (params_id req);
       await user <- deref found_user;
       await post <- deref found;
       await newComment <- new_Comment (text_of req) (user_name user)
                                       (user_avatar user) (id me);
       let post' := set_comments post (unshift newComment (comments post)) in
       await _ <- save true post';
       ret (res_json (JsonComments (comments post'))))
      catch_500.

(** DELETE api/posts/comment/:id/:comment_id.  The post is not saved. *)
Definition delete_comment (req : Request) : World -> Response * World :=
  try_catch
    (await found <- Post_findById (params_id req);
     await post <- deref found;
     let comment :=
       List.find (fun c => String.eqb (comment_id c) (params_comment_id req))
                 (comments post) in
     match comment with
     | None => ret (res_status_json 404 (JsonMsg "Comment does not exist"))
     | Some c =>
         await me <- deref (req_user req);
         if negb (String.eqb (comment_user c) (id me))
         then ret (res_status_json 401 (JsonMsg "User not authorized"))
         else
           let removeIndex := indexOf (map comment_user (comments post)) (id me) in
           ret (res_json (JsonComments (splice removeIndex 1 (comments post))))
     end)
    catch_500.

(** The router: every route runs [auth] before its handler. *)
Inductive Endpoint :=
| CreatePost | ListPosts | GetPost | DeletePost
| LikePost | UnlikePost | AddComment | DeleteComment.

Definition handler (e : Endpoint) : Request -> World -> Response * World :=
  match e with
  | CreatePost => create_post
  | ListPosts => list_posts
  | GetPost => get_post
  | DeletePost => delete_post
  | LikePost => like_post
  | UnlikePost => unlike_post
  | AddComment => add_comment
  | DeleteComment => delete_comment
  end.

Definition route (e : Endpoint) (req : Request) (w : World) : Response * World :=
  match auth req with
  | Respond r => (r, w)
  | Next req' => handler e req' w
  end.

End Handlers.

(** ** Vocabulary of the statements *)

(** The request carries a token that [jwt.verify] accepts and whose payload
    holds the identity [u]. *)
Definition authenticated `{Externals} (req : Request) (u : Identity) : Prop :=
  exists t d,
    header_x_auth_token req = Some t /\ t <> "" /\
    jwt_verify t jwtToken = Some d /\ decoded_user d = Some u.

(** The request carries no token, or one that [jwt.verify] rejects. *)
Definition bad_credential `{Externals} (req : Request) : Prop :=
  header_x_auth_token req = None \/
  exists t, header_x_auth_token req = Some t /\ jwt_verify t jwtToken = None.

(** The post the store gives for the id [i], if any. *)
Definition post_at `{Externals} (w : World) (i : string) : option Post :=
  if is_object_id i then List.find (has_id (canonical i)) (posts w) else None.

(** The comment of [p] that [find] gives for the id [i], if any. *)
Definition comment_at (p : Post) (i : string) : option Comment :=
  List.find (fun c => String.eqb (comment_id c) i) (comments p).

(** How many likes of [ls] are by [u]. *)
Definition likes_by (u : string) (ls : list Like) : nat :=
  length (List.filter (by_user u) ls).

(** At most one like per user. *)
Definition likes_unique (p : Post) : Prop := NoDup (map like_user (likes p)).

(** [p'] is [p] but for its likes and comments: what a post was created
    with is still there. *)
Definition same_snapshot (p p' : Post) : Prop :=
  post_id p' = post_id p /\ post_user p' = post_user p /\
  post_name p' = post_name p /\ post_avatar p' = post_avatar p /\
  post_text p' = post_text p /\ post_date p' = post_date p.

(** The requests of a list, served one after the other. *)
Fixpoint serve `{Externals} (reqs : list (Endpoint * Request)) (w : World) : World :=
  match reqs with
  | [] => w
  | (e, req) :: rest => serve rest (snd (route e req w))
  end.

(** ** A concrete instance of the libraries, for examples

    ObjectIds are 24 hexadecimal digits; the [n]-th generated id is [n]
    written on 24 digits; a token is valid when it is the secret, a dot and
    a user id. *)
Module Fixture.

Definition is_hex (c : Ascii.ascii) : bool :=
  let n := Ascii.nat_of_ascii c in
  ((48 <=? n) && (n <=? 57) || (97 <=? n) && (n <=? 102)
   || (65 <=? n) && (n <=? 70))%nat.

Definition lower_char (c : Ascii.ascii) : Ascii.ascii :=
  let n := Ascii.nat_of_ascii c in
  if ((65 <=? n) && (n <=? 70))%nat then Ascii.ascii_of_nat (n + 32) else c.

Fixpoint lower (s : string) : string :=
  match s with
  | EmptyString => EmptyString
  | String c s' => String (lower_char c) (lower s')
  end.

Fixpoint all_hex (s : string) : bool :=
  match s with
  | EmptyString => true
  | String c s' => is_hex c && all_hex s'
  end.

Definition hex_digit (n : nat) : Ascii.ascii :=
  Ascii.ascii_of_nat (if (n <? 10)%nat then 48 + n else 87 + n)%nat.

Fixpoint hex_of (digits n : nat) (acc : string) : string :=
  match digits with
  | O => acc
  | S d => hex_of d (n / 16)%nat (String (hex_digit (n mod 16)%nat) acc)
  end.

Definition verify (token secret : string) : option Decoded :=
  let k := String.length secret in
  if String.prefix secret token
     && String.eqb (substring k 1 token) "."
  then Some {| decoded_user :=
                 Some {| id := substring (S k) (String.length token - S k) token |} |}
  else None.

#[local] Instance externals : Externals.
Proof.
  refine {| is_object_id s := (String.length s =? 24)%nat && all_hex s;
            canonical := lower;
            new_object_id n := hex_of 24 n "";
            jwt_verify := verify;
            jwtToken := "s3cret" |}.
  assert (Hgen : forall d n acc, lower acc = acc -> lower (hex_of d n acc) = hex_of d n acc).
  { induction d as [|d IH]; intros n acc Hacc; cbn [hex_of]; [exact Hacc|].
    apply IH. cbn [lower]. rewrite Hacc. f_equal.
    assert (Hlt : (n mod 16 < 16)%nat) by (apply Nat.mod_upper_bound; lia).
    destruct (n mod 16)%nat as [|m]; [reflexivity|].
    do 15 (destruct m as [|m]; [reflexivity|]). exfalso. lia. }
  intros n. apply Hgen. reflexivity.
Defined.

Definition alice : string := "00000000000000000000000a".
Definition bob : string := "00000000000000000000000b".
Definition post1 : string := "0000000000000000000000f1".
Definition comment1 : string := "0000000000000000000000c1".
Definition comment2 : string := "0000000000000000000000c2".

Definition token_of (u : string) : string := "s3cret." ++ u.

Definition request (token : option string) (i cid : string)
  (text : option string) : Request :=
  {| header_x_auth_token := token; params_id := i; params_comment_id := cid;
     body_text := text; req_user := None |}.

Definition by_alice (i cid : string) (text : option string) : Request :=
  request (Some (token_of alice)) i cid text.
Definition by_bob (i cid : string) (text : option string) : Request :=
  request (Some (token_of bob)) i cid text.

Definition comment_of (i u text : string) (d : Z) : Comment :=
  {| comment_id := i; comment_user := u; comment_name := u;
     comment_avatar := "avatar"; comment_text := text; comment_date := d |}.

(** A post by alice. *)
Definition post_of (ls : list Like) (cs : list Comment) : Post :=
  {| post_id := post1; post_user := alice; post_name := "Alice";
     post_avatar := "avatar"; post_text := "hello"; post_date := 10;
     likes := ls; comments := cs |}.

Definition world_of (ps : list Post) : World :=
  {| posts := ps;
     users := [ {| user_id := alice; user_name := "Alice"; user_avatar := "avatar" |};
                {| user_id := bob; user_name := "Bob"; user_avatar := "avatar" |} ];
     next_oid := 1000; clock := 50; trace := [] |}.

Definition anonymous (i : string) : Request := request None i "" None.
Definition forged (i : string) : Request := request (Some "garbage") i "" None.

Definition first_comment : Comment := comment_of comment1 alice "first" 1.
Definition second_comment : Comment := comment_of comment2 alice "second" 2.

Definition plain : World := world_of [post_of [] []].
Definition liked_by_alice : World := world_of [post_of [{| like_user := alice |}] []].
Definition two_comments : World :=
  world_of [post_of [] [first_comment; second_comment]].

(** An instance whose tokens all verify and carry no [user] field. *)
Definition no_user_claim : Externals := {|
  is_object_id s := (String.length s =? 24)%nat && all_hex s;
  canonical := lower;
  new_object_id n := hex_of 24 n "";
  jwt_verify := fun _ _ => Some {| decoded_user := None |};
  jwtToken := "s3cret";
  canonical_new_object_id := @canonical_new_object_id externals;
|}.

Definition liked_by_both : World :=
  world_of [post_of [{| like_user := bob |}; {| like_user := alice |}] []].

Definition bob_then_alice : World :=
  world_of [post_of [] [comment_of comment1 bob "first" 1; second_comment]].


(** A second post, by bob. *)
Definition post2 : string := "0000000000000000000000f2".
Definition bobs_post : Post :=
  {| post_id := post2; post_user := bob; post_name := "Bob";
     post_avatar := "avatar"; post_text := "hi"; post_date := 20;
     likes := [{| like_user := alice |}]; comments := [] |}.
Definition two_posts : World := world_of [post_of [] []; bobs_post].

(** A store with three posts, not in the order of their dates; the oldest
    has a like and two comments. *)
Definition post3 : string := "0000000000000000000000f3".
Definition older_post : Post :=
  post_of [{| like_user := alice |}] [second_comment; first_comment].
Definition newest_post : Post :=
  {| post_id := post3; post_user := bob; post_name := "Bob";
     post_avatar := "avatar"; post_text := "latest"; post_date := 30;
     likes := []; comments := [] |}.
Definition busy : World := world_of [older_post; newest_post; bobs_post].

(** The id of the first post with its letters in upper case, and an id that
    is well formed and that no post has. *)
Definition post1_upper : string := "0000000000000000000000F1".
Definition nobody : string := "0000000000000000000000ff".

End Fixture.

(** * Properties *)

Ltac run_handler :=
  unfold try_catch, bind, ret, throw, deref, Post_findById, User_findById,
    Post_find_sort_date, new_Post, new_Comment, save_new, save, remove; simpl.

Section Properties.
Context `{Externals}.

(** ** The middleware *)

Lemma auth_authenticated (req : Request) (u : Identity) :
  authenticated req u -> auth req = Next (set_req_user req (Some u)).
Proof.
  intros (t & d & Ht & Hne & Hv & Hu). unfold auth. rewrite Ht. simpl.
  destruct (String.eqb_spec t "") as [->|_]; [congruence|].
  rewrite Hv, Hu. reflexivity.
Qed.

Lemma auth_empty_token (req : Request) :
  header_x_auth_token req = Some "" -> auth req = Respond no_token.
Proof. intros Ht. unfold auth. rewrite Ht. reflexivity. Qed.

Lemma auth_bad_credential (req : Request) :
  bad_credential req ->
  auth req = Respond no_token \/ auth req = Respond token_not_found.
Proof.
  intros [Hn | (t & Ht & Hv)]; unfold auth.
  - rewrite Hn. left. reflexivity.
  - rewrite Ht. simpl. destruct (String.eqb t ""); [left; reflexivity|].
    rewrite Hv. right. reflexivity.
Qed.

Lemma route_authenticated (e : Endpoint) (req : Request) (u : Identity) (w : World) :
  authenticated req u -> route e req w = handler e (set_req_user req (Some u)) w.
Proof. intros Ha. unfold route. rewrite (auth_authenticated _ _ Ha). reflexivity. Qed.

(** C1: a request without the token header is answered 401 with the "no
    token" message; a request whose token [jwt.verify] rejects is answered
    401 with the "token is not found" message; for a token that verifies,
    the middleware calls next() on the request it received with [req.user]
    set to the [user] field of the decoded payload, every other field of the
    request being as it was. *)
Theorem auth_verifies_token (req : Request) :
  (header_x_auth_token req = None ->
   auth req = Respond {| status := 401;
                         body := JsonMsg " no token authrization denied" |}) /\
  (forall t, header_x_auth_token req = Some t -> t <> "" ->
             jwt_verify t jwtToken = None ->
   auth req = Respond {| status := 401; body := JsonMsg "token is not found" |}) /\
  (forall t d, header_x_auth_token req = Some t -> t <> "" ->
               jwt_verify t jwtToken = Some d ->
   exists req', auth req = Next req' /\
     req_user req' = decoded_user d /\
     header_x_auth_token req' = header_x_auth_token req /\
     params_id req' = params_id req /\
     params_comment_id req' = params_comment_id req /\
     body_text req' = body_text req).
Proof.
  unfold auth. split; [|split].
  - intros ->. reflexivity.
  - intros t -> Hne Hv. simpl.
    destruct (String.eqb_spec t "") as [->|_]; [congruence|].
    rewrite Hv. reflexivity.
  - intros t d Ht Hne Hv. rewrite Ht. simpl.
    destruct (String.eqb_spec t "") as [->|_]; [congruence|].
    rewrite Hv. eexists. split; [reflexivity|]. simpl. auto.
Qed.

(** C6: with a missing or an invalid credential every endpoint answers 401
    and the world is what it was: the collections are untouched and no store
    operation was issued. *)
Theorem bad_credential_rejected (e : Endpoint) (req : Request) (w : World) :
  bad_credential req ->
  exists msg, route e req w = ({| status := 401; body := JsonMsg msg |}, w).
Proof.
  intros Hb. unfold route.
  destruct (auth_bad_credential req Hb) as [-> | ->]; eexists; reflexivity.
Qed.

(** ** The store *)

Lemma post_at_Some (w : World) (i : string) (p : Post) :
  post_at w i = Some p <->
  is_object_id i = true /\ List.find (has_id (canonical i)) (posts w) = Some p.
Proof.
  unfold post_at. destruct (is_object_id i); split.
  - intros Hp. split; [reflexivity | exact Hp].
  - intros [_ Hp]. exact Hp.
  - discriminate.
  - intros [Hp _]. discriminate.
Qed.

Lemma post_at_None (w : World) (i : string) :
  post_at w i = None <->
  is_object_id i = false \/
  (is_object_id i = true /\ List.find (has_id (canonical i)) (posts w) = None).
Proof.
  unfold post_at. destruct (is_object_id i); split; intros Hp; auto.
  destruct Hp as [Hp | [_ Hp]]; [discriminate | exact Hp].
Qed.

Lemma post_at_same_posts (w w' : World) (i : string) :
  posts w' = posts w -> post_at w' i = post_at w i.
Proof. unfold post_at. intros ->. reflexivity. Qed.

Lemma post_at_id (w : World) (i : string) (p : Post) :
  post_at w i = Some p -> post_id p = canonical i.
Proof.
  intros Hp. apply post_at_Some in Hp as [_ Hf].
  apply find_some in Hf as [_ Hid]. unfold has_id in Hid.
  apply String.eqb_eq in Hid. exact Hid.
Qed.

Lemma post_at_In (w : World) (i : string) (p : Post) :
  post_at w i = Some p -> In p (posts w).
Proof.
  intros Hp. apply post_at_Some in Hp as [_ Hf].
  apply find_some in Hf as [Hin _]. exact Hin.
Qed.

(** ** Deleting what belongs to somebody else *)

(** C2: when the identity of the request is not the author of the post,
    DELETE /posts/:id answers 401 and the posts collection is what it was;
    when it is not the author of the targeted comment, DELETE
    /posts/comment/:id/:comment_id answers 401 and the posts collection,
    hence the comments of the post, is what it was.  The comparison is
    equality of strings. *)
Theorem delete_by_non_author (req : Request) (u : Identity) (w : World) (p : Post) :
  authenticated req u ->
  post_at w (params_id req) = Some p ->
  (post_user p <> id u ->
   exists w',
     route DeletePost req w =
       ({| status := 401; body := JsonMsg "User not autherized" |}, w') /\
     posts w' = posts w /\ post_at w' (params_id req) = Some p) /\
  (forall c, comment_at p (params_comment_id req) = Some c ->
             comment_user c <> id u ->
   exists w',
     route DeleteComment req w =
       ({| status := 401; body := JsonMsg "User not authorized" |}, w') /\
     posts w' = posts w /\ post_at w' (params_id req) = Some p).
Proof.
  intros Ha Hp. pose proof Hp as Hp'. apply post_at_Some in Hp' as [Hoid Hf].
  split.
  - intros Hne. exists (log (ReadPost (params_id req)) w).
    rewrite (route_authenticated _ _ _ _ Ha). simpl handler.
    unfold delete_post. run_handler. rewrite Hoid, Hf. simpl.
    destruct (String.eqb_spec (post_user p) (id u)) as [Heq|_]; [contradiction|].
    simpl. auto.
  - intros c Hc Hne. exists (log (ReadPost (params_id req)) w).
    rewrite (route_authenticated _ _ _ _ Ha). simpl handler.
    unfold delete_comment. run_handler. rewrite Hoid, Hf. simpl.
    unfold comment_at in Hc. rewrite Hc.
    destruct (String.eqb_spec (comment_user c) (id u)) as [Heq|_]; [contradiction|].
    simpl. auto.
Qed.

(** ** Deleting a comment does not reach the store *)

Lemma delete_comment_reads_only (req : Request) (w : World) :
  posts (snd (delete_comment req w)) = posts w /\
  users (snd (delete_comment req w)) = users w /\
  trace (snd (delete_comment req w)) = ReadPost (params_id req) :: trace w.
Proof.
  unfold delete_comment. run_handler.
  destruct (is_object_id (params_id req)); simpl; auto.
  destruct (List.find _ (posts w)); simpl; auto.
  destruct (List.find _ (comments p)); simpl; auto.
  destruct (req_user req); simpl; auto.
  destruct (negb _); simpl; auto.
Qed.

(** C10: when delete-comment succeeds, it answers 200 with the comments
    array it spliced in its own copy of the post, and the store is what it
    was: the only store operation is the read of the post, the posts
    collection is unchanged, the comment is still in the stored post, and a
    later GET of the post returns the post as it was before. *)
Theorem delete_comment_not_persisted
  (req : Request) (u : Identity) (w : World) (p : Post) (c : Comment) :
  authenticated req u ->
  post_at w (params_id req) = Some p ->
  comment_at p (params_comment_id req) = Some c ->
  comment_user c = id u ->
  exists cs w',
    route DeleteComment req w = ({| status := 200; body := JsonComments cs |}, w') /\
    trace w' = ReadPost (params_id req) :: trace w /\
    posts w' = posts w /\
    post_at w' (params_id req) = Some p /\
    In c (comments p) /\
    forall req2 u2,
      authenticated req2 u2 -> params_id req2 = params_id req ->
      fst (route GetPost req2 w') = {| status := 200; body := JsonPost p |}.
Proof.
  intros Ha Hp Hc Hu. pose proof Hp as Hp'. apply post_at_Some in Hp' as [Hoid Hf].
  exists (splice (indexOf (map comment_user (comments p)) (id u)) 1 (comments p)),
    (log (ReadPost (params_id req)) w).
  split; [|repeat split].
  - rewrite (route_authenticated _ _ _ _ Ha). simpl handler.
    unfold delete_comment. run_handler. rewrite Hoid, Hf. simpl.
    unfold comment_at in Hc. rewrite Hc, Hu, String.eqb_refl. reflexivity.
  - exact Hp.
  - unfold comment_at in Hc. apply find_some in Hc as [Hin _]. exact Hin.
  - intros req2 u2 Ha2 Hid. rewrite (route_authenticated _ _ _ _ Ha2).
    simpl handler. unfold get_post. run_handler. rewrite Hid, Hoid, Hf.
    reflexivity.
Qed.

(** ** Ids that name no post *)

Lemma get_post_unknown (req : Request) (w : World) :
  post_at w (params_id req) = None ->
  get_post req w = (not_found, log (ReadPost (params_id req)) w).
Proof.
  intros Hp. apply post_at_None in Hp as [Hoid | [Hoid Hf]];
    unfold get_post; run_handler; rewrite Hoid; [|rewrite Hf]; reflexivity.
Qed.

Lemma delete_post_unknown (req : Request) (w : World) :
  post_at w (params_id req) = None ->
  delete_post req w = (not_found, log (ReadPost (params_id req)) w).
Proof.
  intros Hp. apply post_at_None in Hp as [Hoid | [Hoid Hf]];
    unfold delete_post; run_handler; rewrite Hoid; [|rewrite Hf]; reflexivity.
Qed.

Lemma like_post_unknown (req : Request) (w : World) :
  post_at w (params_id req) = None ->
  like_post req w = (server_error, log (ReadPost (params_id req)) w).
Proof.
  intros Hp. apply post_at_None in Hp as [Hoid | [Hoid Hf]];
    unfold like_post; run_handler; rewrite Hoid; [|rewrite Hf]; reflexivity.
Qed.

Lemma unlike_post_unknown (req : Request) (w : World) :
  post_at w (params_id req) = None ->
  unlike_post req w = (server_error, log (ReadPost (params_id req)) w).
Proof.
  intros Hp. apply post_at_None in Hp as [Hoid | [Hoid Hf]];
    unfold unlike_post; run_handler; rewrite Hoid; [|rewrite Hf]; reflexivity.
Qed.

Lemma delete_comment_unknown (req : Request) (w : World) :
  post_at w (params_id req) = None ->
  delete_comment req w = (server_error, log (ReadPost (params_id req)) w).
Proof.
  intros Hp. apply post_at_None in Hp as [Hoid | [Hoid Hf]];
    unfold delete_comment; run_handler; rewrite Hoid; [|rewrite Hf]; reflexivity.
Qed.

Lemma add_comment_unknown (req : Request) (w : World) :
  validationResult req = [] ->
  post_at w (params_id req) = None ->
  fst (add_comment req w) = server_error /\
  posts (snd (add_comment req w)) = posts w.
Proof.
  intros Hv Hp. unfold add_comment. rewrite Hv. simpl. run_handler.
  destruct (req_user req) as [me|]; simpl; [|auto].
  destruct (is_object_id (id me)); simpl; [|auto].
  apply post_at_None in Hp as [Hoid | [Hoid Hf]]; rewrite Hoid; simpl; [auto|].
  rewrite Hf. destruct (List.find _ (users w)); simpl; auto.
Qed.

(** C7, as the code has it: a post id that cannot be cast to an ObjectId is
    treated as an id whose ObjectId no stored post has, by every endpoint.
    GET /posts/:id and DELETE /posts/:id answer 404 "post not found" for
    both and never 500; like, unlike and delete-comment answer 500 "Server
    Error" for both, and so does add-comment once its text has passed the
    validation (without a text it answers 400 before it looks at the id).
    On a post that exists, a comment id that no comment of the post has,
    well-formed or not, gives 404 "Comment does not exist".  Nothing is
    written in any of these cases. *)
Theorem unknown_id_outcomes (req : Request) (u : Identity) (w : World) :
  authenticated req u ->
  (is_object_id (params_id req) = false \/
   (is_object_id (params_id req) = true /\
    List.find (has_id (canonical (params_id req))) (posts w) = None) ->
   (forall e, e = GetPost \/ e = DeletePost ->
      fst (route e req w) = {| status := 404; body := JsonMsg "post not found" |} /\
      posts (snd (route e req w)) = posts w) /\
   (forall e, e = LikePost \/ e = UnlikePost \/ e = DeleteComment \/
              (e = AddComment /\ validationResult req = []) ->
      fst (route e req w) = {| status := 500; body := Text "Server Error" |} /\
      posts (snd (route e req w)) = posts w) /\
   (validationResult req <> [] ->
      route AddComment req w =
        ({| status := 400; body := JsonErrors (validationResult req) |}, w))) /\
  (forall p, post_at w (params_id req) = Some p ->
             comment_at p (params_comment_id req) = None ->
     fst (route DeleteComment req w) =
       {| status := 404; body := JsonMsg "Comment does not exist" |} /\
     posts (snd (route DeleteComment req w)) = posts w).
Proof.
  intros Ha. split.
  - intros Hp. apply post_at_None in Hp. split; [|split].
    3: { intros Hv. rewrite (route_authenticated _ _ _ _ Ha). simpl handler.
         unfold add_comment.
         change (validationResult (set_req_user req (Some u))) with (validationResult req).
         destruct (validationResult req); [congruence | reflexivity]. }
    + intros e [-> | ->]; rewrite (route_authenticated _ _ _ _ Ha); simpl handler.
      * rewrite get_post_unknown by exact Hp. auto.
      * rewrite delete_post_unknown by exact Hp. auto.
    + intros e [-> | [-> | [-> | [-> Hv]]]];
        rewrite (route_authenticated _ _ _ _ Ha); simpl handler.
      * rewrite like_post_unknown by exact Hp. auto.
      * rewrite unlike_post_unknown by exact Hp. auto.
      * rewrite delete_comment_unknown by exact Hp. auto.
      * apply add_comment_unknown; [exact Hv | exact Hp].
  - intros p Hp Hc. apply post_at_Some in Hp as [Hoid Hf].
    rewrite (route_authenticated _ _ _ _ Ha). simpl handler.
    unfold delete_comment. run_handler. rewrite Hoid, Hf. simpl.
    unfold comment_at in Hc. rewrite Hc. simpl. auto.
Qed.

(** ** Saving a fetched post *)

Lemma find_replace (i : string) (p p' : Post) (ps : list Post) :
  post_id p' = i ->
  List.find (has_id i) ps = Some p ->
  List.find (has_id i) (map (fun q => if has_id (post_id p') q then p' else q) ps)
  = Some p'.
Proof.
  intros Hid. induction ps as [|q ps IH]; simpl; [discriminate|].
  rewrite Hid. destruct (has_id i q) eqn:Hq.
  - intros _. unfold has_id at 1. rewrite Hid, String.eqb_refl. reflexivity.
  - rewrite Hq. rewrite Hid in IH. exact IH.
Qed.

Lemma post_at_saved (w w' : World) (i : string) (p p' : Post) :
  post_id p' = canonical i ->
  post_at w i = Some p ->
  posts w' = map (fun q => if has_id (post_id p') q then p' else q) (posts w) ->
  post_at w' i = Some p'.
Proof.
  intros Hid Hp Hw. apply post_at_Some in Hp as [Hoid Hf].
  apply post_at_Some. split; [exact Hoid|].
  rewrite Hw. eapply find_replace; eauto.
Qed.

(** ** Order *)

#[local] Instance newer_first_total : Total newer_first.
Proof. intros p q. unfold newer_first. lia. Qed.

#[local] Instance newer_first_trans : Transitive newer_first.
Proof. intros p q r. unfold newer_first. lia. Qed.

Lemma not_liked_filter (u : string) (ls : list Like) :
  likes_by u ls = 0%nat ->
  (0 <? Z.of_nat (length (List.filter (by_user u) ls))) = false.
Proof. unfold likes_by. intros ->. reflexivity. Qed.

Lemma like_post_fresh (req : Request) (me : Identity) (w : World) (p : Post) :
  req_user req = Some me ->
  post_at w (params_id req) = Some p ->
  likes_by (id me) (likes p) = 0%nat ->
  is_object_id (id me) = true ->
  let p' := set_likes p ({| like_user := canonical (id me) |} :: likes p) in
  like_post req w =
    (res_json (JsonLikes (likes p')),
     set_posts (log (UpdatePost (post_id p)) (log (ReadPost (params_id req)) w))
       (map (fun q => if has_id (post_id p) q then p' else q) (posts w))).
Proof.
  intros Hu Hp Hl Hcast. apply post_at_Some in Hp as [Hoid Hf].
  unfold like_post. run_handler. rewrite Hoid, Hf, Hu. simpl.
  rewrite (not_liked_filter _ _ Hl), Hcast. reflexivity.
Qed.

(** A like by an identity whose id cannot be cast to an ObjectId is refused
    by [save]: 500, and nothing is written. *)
Lemma like_post_uncastable (req : Request) (me : Identity) (w : World) (p : Post) :
  req_user req = Some me ->
  post_at w (params_id req) = Some p ->
  likes_by (id me) (likes p) = 0%nat ->
  is_object_id (id me) = false ->
  like_post req w = (server_error, log (ReadPost (params_id req)) w).
Proof.
  intros Hu Hp Hl Hcast. apply post_at_Some in Hp as [Hoid Hf].
  unfold like_post. run_handler. rewrite Hoid, Hf, Hu. simpl.
  rewrite (not_liked_filter _ _ Hl), Hcast. reflexivity.
Qed.

(** C8: GET /posts answers with all the posts of the collection, the newest
    first; a like that is accepted (the user has not liked the post and the
    id of the user is an ObjectId) is stored at the head of the likes of the
    post, before the likes that were there, and a comment that is accepted is
    stored at the head of the comments of the post, stamped with the current
    time; each endpoint answers with the updated sequence. *)
Theorem newest_first (req : Request) (u : Identity) (w : World) :
  authenticated req u ->
  (exists ps,
     fst (route ListPosts req w) = {| status := 200; body := JsonPosts ps |} /\
     Permutation ps (posts w) /\
     StronglySorted (fun p q => post_date q <= post_date p) ps) /\
  (forall p, post_at w (params_id req) = Some p ->
             likes_by (id u) (likes p) = 0%nat ->
             is_object_id (id u) = true ->
     let ls := {| like_user := canonical (id u) |} :: likes p in
     fst (route LikePost req w) = {| status := 200; body := JsonLikes ls |} /\
     post_at (snd (route LikePost req w)) (params_id req) = Some (set_likes p ls)) /\
  (forall p usr t,
     post_at w (params_id req) = Some p ->
     is_object_id (id u) = true ->
     List.find (fun x => String.eqb (user_id x) (id u)) (users w) = Some usr ->
     body_text req = Some t -> t <> "" ->
     exists c,
       let cs := c :: comments p in
       comment_user c = id u /\ comment_text c = t /\
       comment_name c = user_name usr /\ comment_avatar c = user_avatar usr /\
       comment_date c = clock w /\
       fst (route AddComment req w) = {| status := 200; body := JsonComments cs |} /\
       post_at (snd (route AddComment req w)) (params_id req)
         = Some (set_comments p cs)).
Proof.
  intros Ha. split; [|split].
  - exists (merge_sort newer_first (posts w)).
    rewrite (route_authenticated _ _ _ _ Ha). simpl. split; [reflexivity|]. split.
    + apply merge_sort_Permutation.
    + apply (StronglySorted_merge_sort newer_first).
  - intros p Hp Hl Hcast ls. rewrite (route_authenticated _ _ _ _ Ha). simpl handler.
    rewrite (like_post_fresh _ u w p) by (try reflexivity; assumption).
    simpl. split; [reflexivity|].
    eapply post_at_saved; [| exact Hp | reflexivity].
    simpl. eapply post_at_id; eauto.
  - intros p usr t Hp Hoidu Hfu Ht Hne.
    pose proof (post_at_id _ _ _ Hp) as Hid.
    pose proof Hp as Hp'. apply post_at_Some in Hp' as [Hoid Hf].
    exists {| comment_id := new_object_id (next_oid w); comment_user := id u;
              comment_name := user_name usr; comment_avatar := user_avatar usr;
              comment_text := t; comment_date := clock w |}.
    cbv zeta.
    rewrite (route_authenticated _ _ _ _ Ha). simpl handler.
    unfold add_comment, validationResult, text_of. simpl. rewrite Ht.
    destruct (String.eqb_spec t "") as [->|_]; [congruence|]. simpl.
    run_handler. rewrite Hoidu. simpl. rewrite Hoid. simpl.
    rewrite Hfu, Hf. simpl.
    repeat (split; [reflexivity|]).
    eapply post_at_saved; [| exact Hp | reflexivity].
    exact Hid.
Qed.

(** ** Create, then get *)

Lemma find_fresh_last (i : string) (p : Post) (ps : list Post) :
  existsb (has_id i) ps = false -> post_id p = i ->
  List.find (has_id i) (ps ++ [p]) = Some p.
Proof.
  intros Hex Hid. induction ps as [|q ps IH]; simpl in *.
  - unfold has_id. rewrite Hid, String.eqb_refl. reflexivity.
  - apply orb_false_iff in Hex as [Hq Hex]. rewrite Hq. auto.
Qed.

(** C9: a post created with a non-empty text by an identity the users
    collection knows is answered with its text, the identity as its user
    and the name and avatar of that user; a GET of the returned id, issued
    next, answers with the same post, hence with the same text and author
    fields.  The ObjectId generated for the post is taken to be a
    well-formed id that no stored post has. *)
Theorem create_then_get
  (req : Request) (u : Identity) (w : World) (usr : User) (t : string) :
  authenticated req u ->
  is_object_id (id u) = true ->
  List.find (fun x => String.eqb (user_id x) (id u)) (users w) = Some usr ->
  body_text req = Some t -> t <> "" ->
  is_object_id (new_object_id (next_oid w)) = true ->
  existsb (has_id (new_object_id (next_oid w))) (posts w) = false ->
  exists p w1,
    route CreatePost req w = ({| status := 200; body := JsonPost p |}, w1) /\
    post_text p = t /\ post_user p = id u /\
    post_name p = user_name usr /\ post_avatar p = user_avatar usr /\
    forall req2 u2,
      authenticated req2 u2 -> params_id req2 = post_id p ->
      exists q,
        fst (route GetPost req2 w1) = {| status := 200; body := JsonPost q |} /\
        post_text q = post_text p /\ post_user q = post_user p /\
        post_name q = post_name p /\ post_avatar q = post_avatar p.
Proof.
  intros Ha Hoidu Hfu Ht Hne Hoid Hfresh.
  eexists. eexists. split.
  - rewrite (route_authenticated _ _ _ _ Ha). simpl handler.
    unfold create_post, validationResult, text_of. simpl. rewrite Ht.
    destruct (String.eqb_spec t "") as [->|_]; [congruence|]. simpl.
    run_handler. rewrite Hoidu. simpl. rewrite Hfu. simpl.
    rewrite Hfresh. reflexivity.
  - simpl. repeat (split; [reflexivity|]).
    intros req2 u2 Ha2 Hid. eexists.
    rewrite (route_authenticated _ _ _ _ Ha2). simpl handler.
    unfold get_post. run_handler. rewrite Hid, Hoid, canonical_new_object_id.
    rewrite find_fresh_last by (try reflexivity; exact Hfresh).
    simpl. repeat split; reflexivity.
Qed.

(** ** [indexOf] and [splice] *)

Lemma indexOf_absent (xs : list string) (x : string) :
  ~ In x xs -> indexOf xs x = -1.
Proof.
  induction xs as [|y ys IH]; simpl; [reflexivity|]. intros Hn.
  destruct (String.eqb_spec y x) as [->|_]; [tauto|].
  rewrite IH by tauto. reflexivity.
Qed.

Lemma indexOf_first (l1 l2 : list string) (x : string) :
  ~ In x l1 -> indexOf (l1 ++ x :: l2) x = Z.of_nat (length l1).
Proof.
  induction l1 as [|y l1 IH]; simpl; intros Hn.
  - rewrite String.eqb_refl. reflexivity.
  - destruct (String.eqb_spec y x) as [->|_]; [tauto|].
    rewrite IH by tauto.
    destruct (Z.ltb_spec (Z.of_nat (length l1)) 0); lia.
Qed.

Lemma in_map_first {A} (f : A -> string) (l : list A) (u : string) :
  In u (map f l) ->
  exists l1 x l2, l = l1 ++ x :: l2 /\ f x = u /\ ~ In u (map f l1).
Proof.
  induction l as [|a l IH]; simpl; [tauto|]. intros Hin.
  destruct (String.string_dec (f a) u) as [Hau|Hau].
  - exists [], a, l. simpl. tauto.
  - destruct Hin as [Hin|Hin]; [contradiction|].
    destruct (IH Hin) as (l1 & x & l2 & -> & Hx & Hn).
    exists (a :: l1), x, l2. simpl. tauto.
Qed.

Lemma splice_at {A} (l1 l2 : list A) (x : A) :
  splice (Z.of_nat (length l1)) 1 (l1 ++ x :: l2) = l1 ++ l2.
Proof.
  unfold splice. rewrite length_app. simpl length.
  destruct (Z.ltb_spec (Z.of_nat (length l1)) 0) as [Hlt|_]; [lia|].
  rewrite Z.min_l by lia. rewrite Nat2Z.id.
  rewrite take_app_length, drop_app_add. reflexivity.
Qed.

(** When somebody in [l] has the key [u], [splice] at [indexOf] removes the
    first such element and nothing else. *)
Lemma splice_first_match {A} (f : A -> string) (l : list A) (u : string) :
  In u (map f l) ->
  exists l1 x l2,
    l = l1 ++ x :: l2 /\ f x = u /\ ~ In u (map f l1) /\
    splice (indexOf (map f l) u) 1 l = l1 ++ l2.
Proof.
  intros Hin. destruct (in_map_first f l u Hin) as (l1 & x & l2 & -> & Hx & Hn).
  exists l1, x, l2. repeat split; auto.
  rewrite map_app. simpl. rewrite Hx, indexOf_first by exact Hn.
  rewrite length_map. apply splice_at.
Qed.

(** When nobody has the key, the index is -1 and [splice] removes the last
    element. *)
Lemma splice_no_match {A} (f : A -> string) (l : list A) (u : string) :
  ~ In u (map f l) ->
  splice (indexOf (map f l) u) 1 l = removelast l.
Proof.
  intros Hn. rewrite indexOf_absent by exact Hn. unfold splice.
  destruct l as [|a l] using rev_ind; [reflexivity|].
  rewrite removelast_last, length_app. simpl length.
  replace (Z.to_nat _) with (length l).
  - rewrite take_app_length, drop_app_add. apply app_nil_r.
  - simpl. destruct (Z.ltb_spec (-1) 0); lia.
Qed.

Lemma splice_sublist {A} (start : Z) (count : nat) (l : list A) :
  sublist (splice start count l) l.
Proof.
  unfold splice. set (k := Z.to_nat _).
  rewrite <- (take_drop k l) at 3. apply sublist_app; [reflexivity|].
  rewrite <- drop_drop. apply sublist_drop.
Qed.

Lemma splice_map {A B} (f : A -> B) (start : Z) (count : nat) (l : list A) :
  map f (splice start count l) = splice start count (map f l).
Proof.
  unfold splice. rewrite map_app, length_map, firstn_map, skipn_map. reflexivity.
Qed.

Lemma splice_NoDup {A B} (f : A -> B) (start : Z) (count : nat) (l : list A) :
  NoDup (map f l) -> NoDup (map f (splice start count l)).
Proof.
  intros Hnd. rewrite splice_map. eapply sublist_NoDup; [exact Hnd|].
  apply splice_sublist.
Qed.

(** ** Likes *)

Lemma likes_by_zero (u : string) (ls : list Like) :
  likes_by u ls = 0%nat <-> ~ In u (map like_user ls).
Proof.
  unfold likes_by, by_user. induction ls as [|l ls IH]; simpl; [tauto|].
  destruct (String.eqb_spec (like_user l) u) as [Heq|Hne]; simpl.
  - split; [discriminate | tauto].
  - rewrite IH. tauto.
Qed.

Lemma likes_by_one (u : string) (ls : list Like) :
  NoDup (map like_user ls) -> In u (map like_user ls) -> likes_by u ls = 1%nat.
Proof.
  induction ls as [|l ls IH]; simpl; [tauto|]. intros Hnd Hin.
  apply NoDup_cons in Hnd as [Hnotin Hnd]. rewrite list_elem_of_In in Hnotin.
  unfold likes_by, by_user. simpl.
  destruct (String.eqb_spec (like_user l) u) as [Heq|Hne]; simpl.
  - f_equal. apply likes_by_zero. rewrite <- Heq. exact Hnotin.
  - destruct Hin as [Hin|Hin]; [contradiction|]. apply IH; assumption.
Qed.

Lemma like_post_again (req : Request) (me : Identity) (w : World) (p : Post) :
  req_user req = Some me ->
  post_at w (params_id req) = Some p ->
  likes_by (id me) (likes p) <> 0%nat ->
  like_post req w =
    ({| status := 400; body := JsonMsg "post already liked" |},
     log (ReadPost (params_id req)) w).
Proof.
  intros Hu Hp Hl. apply post_at_Some in Hp as [Hoid Hf].
  unfold like_post. run_handler. rewrite Hoid, Hf, Hu. simpl.
  unfold likes_by in Hl.
  destruct (Z.ltb_spec 0 (Z.of_nat (length (List.filter (by_user (id me)) (likes p)))));
    [reflexivity | lia].
Qed.

Lemma likes_unique_replace (i : string) (p' : Post) (ps : list Post) :
  Forall likes_unique ps -> likes_unique p' ->
  Forall likes_unique (map (fun q => if has_id i q then p' else q) ps).
Proof.
  intros Hps Hp'. induction Hps as [|q ps Hq _ IH]; simpl; constructor; auto.
  destruct (has_id i q); assumption.
Qed.

Lemma likes_unique_found (i : string) (p : Post) (ps : list Post) :
  Forall likes_unique ps -> List.find (has_id i) ps = Some p -> likes_unique p.
Proof.
  intros Hps Hf. apply find_some in Hf as [Hin _].
  rewrite Forall_forall in Hps. apply Hps, list_elem_of_In, Hin.
Qed.

Lemma likes_unique_like (u : string) (p : Post) :
  likes_unique p -> likes_by u (likes p) = 0%nat ->
  likes_unique (set_likes p (unshift {| like_user := u |} (likes p))).
Proof.
  unfold likes_unique. simpl. intros Hnd Hz. apply NoDup_cons.
  split; [rewrite list_elem_of_In; apply likes_by_zero, Hz | exact Hnd].
Qed.

Lemma likes_unique_unlike (start : Z) (p : Post) :
  likes_unique p -> likes_unique (set_likes p (splice start 1 (likes p))).
Proof. unfold likes_unique. simpl. apply splice_NoDup. Qed.

Lemma authenticated_unique (req : Request) (u u' : Identity) :
  authenticated req u -> authenticated req u' -> u = u'.
Proof.
  intros (t & d & Ht & _ & Hv & Hu) (t' & d' & Ht' & _ & Hv' & Hu').
  congruence.
Qed.

Lemma auth_next (req req' : Request) :
  auth req = Next req' ->
  params_id req' = params_id req /\
  forall me, req_user req' = Some me -> authenticated req me.
Proof.
  unfold auth. destruct (falsy_token _) eqn:Hfalsy; [discriminate|].
  destruct (header_x_auth_token req) as [t|] eqn:Ht; [|discriminate].
  destruct (jwt_verify t jwtToken) as [d|] eqn:Hv; [|discriminate].
  intros [= <-]. split; [reflexivity|]. simpl. intros me Hme.
  exists t, d. repeat split; try assumption.
  intros ->. discriminate.
Qed.

(** No endpoint breaks the invariant "at most one like per user", when the
    identity of the request has its id in the spelling the store prints. *)
Lemma handler_keeps_likes_unique (e : Endpoint) (req : Request) (w : World) :
  (forall me, req_user req = Some me -> canonical (id me) = id me) ->
  Forall likes_unique (posts w) ->
  Forall likes_unique (posts (snd (handler e req w))).
Proof.
  intros Hcan Hw. destruct e; simpl handler.
  - unfold create_post. destruct (negb _); [exact Hw|]. run_handler.
    destruct (req_user req) as [me|]; simpl; [|exact Hw].
    destruct (is_object_id (id me)); simpl; [|exact Hw].
    destruct (List.find _ (users w)); simpl; [|exact Hw].
    destruct (existsb _ (posts w)); simpl; [exact Hw|].
    apply Forall_app. split; [exact Hw|]. repeat constructor.
  - exact Hw.
  - unfold get_post. run_handler.
    destruct (is_object_id (params_id req)); simpl; [|exact Hw].
    destruct (List.find _ (posts w)); exact Hw.
  - unfold delete_post. run_handler.
    destruct (is_object_id (params_id req)); simpl; [|exact Hw].
    destruct (List.find _ (posts w)) as [p|]; simpl; [|exact Hw].
    destruct (req_user req) as [me|]; simpl; [|exact Hw].
    destruct (negb _); simpl; [exact Hw|].
    rewrite Forall_forall in *. intros q Hq. apply Hw.
    apply list_elem_of_In in Hq. apply filter_In in Hq as [Hq _].
    apply list_elem_of_In, Hq.
  - unfold like_post. run_handler.
    destruct (is_object_id (params_id req)); simpl; [|exact Hw].
    destruct (List.find _ (posts w)) as [p|] eqn:Hf; simpl; [|exact Hw].
    destruct (req_user req) as [me|] eqn:Hme; simpl; [|exact Hw].
    destruct (Z.ltb_spec 0 (Z.of_nat (length (List.filter (by_user (id me)) (likes p)))))
      as [Hlt|Hge]; simpl; [exact Hw|].
    destruct (is_object_id (id me)); simpl; [|exact Hw].
    apply likes_unique_replace; [exact Hw|].
    rewrite (Hcan me eq_refl).
    apply likes_unique_like; [eapply likes_unique_found; eauto|].
    unfold likes_by. lia.
  - unfold unlike_post. run_handler.
    destruct (is_object_id (params_id req)); simpl; [|exact Hw].
    destruct (List.find _ (posts w)) as [p|] eqn:Hf; simpl; [|exact Hw].
    destruct (req_user req) as [me|]; simpl; [|exact Hw].
    apply likes_unique_replace; [exact Hw|].
    apply likes_unique_unlike. eapply likes_unique_found; eauto.
  - unfold add_comment. destruct (negb _); [exact Hw|]. run_handler.
    destruct (req_user req) as [me|]; simpl; [|exact Hw].
    destruct (is_object_id (id me)); simpl; [|exact Hw].
    destruct (is_object_id (params_id req)); simpl; [|exact Hw].
    destruct (List.find _ (users w)); simpl; [|exact Hw].
    destruct (List.find _ (posts w)) as [p|] eqn:Hf; simpl; [|exact Hw].
    apply likes_unique_replace; [exact Hw|].
    unfold likes_unique. simpl. eapply likes_unique_found; eauto.
  - destruct (delete_comment_reads_only req w) as [-> _]. exact Hw.
Qed.

Lemma route_keeps_likes_unique (e : Endpoint) (req : Request) (w : World) :
  (forall u, authenticated req u -> canonical (id u) = id u) ->
  Forall likes_unique (posts w) ->
  Forall likes_unique (posts (snd (route e req w))).
Proof.
  intros Hcan Hw. unfold route. destruct (auth req) as [r|req'] eqn:Hauth; [exact Hw|].
  apply auth_next in Hauth as [_ Hme].
  apply handler_keeps_likes_unique; [|exact Hw].
  intros me Hreq. apply Hcan, Hme, Hreq.
Qed.

(** C3: in a store where no post has two likes of one user, when a user,
    whose token carries the id of the user as the store prints it, likes a
    post twice in sequence, the stored post has exactly one like of that
    user after the first call (the like is at the head of the sequence when
    the user had not liked the post before), the second call answers 400
    "post already liked" and leaves the posts collection as the first call
    left it, and still no post has two likes of one user. *)
Theorem like_twice (req : Request) (u : Identity) (w : World) (p : Post) :
  authenticated req u ->
  is_object_id (id u) = true ->
  canonical (id u) = id u ->
  post_at w (params_id req) = Some p ->
  Forall likes_unique (posts w) ->
  exists r1 w1 p1 w2,
    route LikePost req w = (r1, w1) /\
    post_at w1 (params_id req) = Some p1 /\
    likes_by (id u) (likes p1) = 1%nat /\
    (likes_by (id u) (likes p) = 0%nat ->
     likes p1 = {| like_user := id u |} :: likes p /\
     r1 = {| status := 200; body := JsonLikes (likes p1) |}) /\
    route LikePost req w1 =
      ({| status := 400; body := JsonMsg "post already liked" |}, w2) /\
    posts w2 = posts w1 /\
    Forall likes_unique (posts w2).
Proof.
  intros Ha Hcast Hcan Hp Hw.
  assert (Hspelled : forall u', authenticated req u' -> canonical (id u') = id u').
  { intros u' Ha'. rewrite <- (authenticated_unique _ _ _ Ha Ha'). exact Hcan. }
  pose proof (route_keeps_likes_unique LikePost req w Hspelled Hw) as Hw1.
  assert (Hnd : likes_unique p).
  { pose proof Hp as Hf. apply post_at_Some in Hf as [_ Hf].
    exact (likes_unique_found _ _ _ Hw Hf). }
  rewrite (route_authenticated _ _ _ _ Ha) in *. simpl handler in *.
  destruct (Nat.eq_dec (likes_by (id u) (likes p)) 0%nat) as [Hz|Hnz].
  - rewrite (like_post_fresh _ u w p) in * by (try reflexivity; assumption).
    cbv zeta in *. simpl snd in Hw1. rewrite Hcan in *.
    set (p1 := set_likes p ({| like_user := id u |} :: likes p)) in *.
    set (w1 := set_posts _ _) in *.
    assert (Hp1 : post_at w1 (params_id req) = Some p1).
    { eapply post_at_saved; [| exact Hp | reflexivity].
      simpl. eapply post_at_id; eauto. }
    assert (Hone : likes_by (id u) (likes p1) = 1%nat).
    { apply likes_by_one.
      - apply (likes_unique_like (id u) p Hnd Hz).
      - simpl. left. reflexivity. }
    exists (res_json (JsonLikes (likes p1))), w1, p1, (log (ReadPost (params_id req)) w1).
    split; [reflexivity|]. split; [exact Hp1|]. split; [exact Hone|].
    split; [intros _; split; reflexivity|].
    rewrite (route_authenticated _ _ _ _ Ha). simpl handler.
    rewrite (like_post_again _ u w1 p1) by (try reflexivity; try assumption; lia).
    split; [reflexivity|]. split; [reflexivity|]. exact Hw1.
  - rewrite (like_post_again _ u w p) in * by (try reflexivity; assumption).
    simpl snd in Hw1.
    exists {| status := 400; body := JsonMsg "post already liked" |},
      (log (ReadPost (params_id req)) w), p,
      (log (ReadPost (params_id req)) (log (ReadPost (params_id req)) w)).
    split; [reflexivity|]. split; [exact Hp|].
    split.
    { apply likes_by_one; [exact Hnd|].
      destruct (in_dec String.string_dec (id u) (map like_user (likes p))) as [Hin|Hnin];
        [exact Hin|]. apply likes_by_zero in Hnin. contradiction. }
    split; [intros Hz; contradiction|].
    rewrite (route_authenticated _ _ _ _ Ha). simpl handler.
    rewrite (like_post_again _ u _ p) by (try reflexivity; assumption).
    split; [reflexivity|]. split; [reflexivity|]. exact Hw1.
Qed.

(** ** What unlike and delete-comment remove *)

(** The first [if] of the unlike handler never fires. *)
Lemma unlike_guard_false {A} (xs : list A) :
  truthy (snd (assign_length xs 0)) = false.
Proof. reflexivity. Qed.

Lemma unlike_post_run (req : Request) (me : Identity) (w : World) (p : Post) :
  req_user req = Some me ->
  post_at w (params_id req) = Some p ->
  let p' := set_likes p (splice (indexOf (map like_user (likes p)) (id me)) 1 (likes p)) in
  unlike_post req w =
    (res_json (JsonLikes (likes p')),
     set_posts (log (UpdatePost (post_id p)) (log (ReadPost (params_id req)) w))
       (map (fun q => if has_id (post_id p) q then p' else q) (posts w))).
Proof.
  intros Hu Hp. apply post_at_Some in Hp as [Hoid Hf].
  unfold unlike_post. run_handler. rewrite Hoid, Hf, Hu. reflexivity.
Qed.

(** The unlike endpoint never answers 400. *)
Lemma unlike_never_rejects (req : Request) (w : World) :
  status (fst (unlike_post req w)) = 200 \/ status (fst (unlike_post req w)) = 500.
Proof.
  unfold unlike_post. run_handler.
  destruct (is_object_id (params_id req)); simpl; auto.
  destruct (List.find _ (posts w)); simpl; auto.
  destruct (req_user req); simpl; auto.
Qed.

(** When the user has liked the post, unlike removes the first like of the
    user, stores the post and answers with the likes that are left. *)
Lemma unlike_post_liked (req : Request) (me : Identity) (w : World) (p : Post) :
  req_user req = Some me ->
  post_at w (params_id req) = Some p ->
  In (id me) (map like_user (likes p)) ->
  exists l1 x l2,
    likes p = l1 ++ x :: l2 /\ like_user x = id me /\
    ~ In (id me) (map like_user l1) /\
    fst (unlike_post req w) = {| status := 200; body := JsonLikes (l1 ++ l2) |} /\
    post_at (snd (unlike_post req w)) (params_id req) = Some (set_likes p (l1 ++ l2)).
Proof.
  intros Hu Hp Hin.
  destruct (splice_first_match like_user (likes p) (id me) Hin)
    as (l1 & x & l2 & Hl & Hx & Hn & Hs).
  exists l1, x, l2. repeat (split; [assumption|]).
  rewrite (unlike_post_run req me w p Hu Hp). cbv zeta. rewrite Hs. simpl.
  split; [reflexivity|].
  eapply post_at_saved; [| exact Hp | reflexivity].
  simpl. eapply post_at_id; eauto.
Qed.

(** When the user has not liked the post, unlike removes the last like of
    the post, whoever gave it, stores the post and answers 200. *)
Lemma unlike_post_not_liked (req : Request) (me : Identity) (w : World) (p : Post) :
  req_user req = Some me ->
  post_at w (params_id req) = Some p ->
  ~ In (id me) (map like_user (likes p)) ->
  fst (unlike_post req w)
    = {| status := 200; body := JsonLikes (removelast (likes p)) |} /\
  post_at (snd (unlike_post req w)) (params_id req)
    = Some (set_likes p (removelast (likes p))).
Proof.
  intros Hu Hp Hn.
  rewrite (unlike_post_run req me w p Hu Hp). cbv zeta.
  rewrite (splice_no_match like_user (likes p) (id me) Hn). simpl.
  split; [reflexivity|].
  eapply post_at_saved; [| exact Hp | reflexivity].
  simpl. eapply post_at_id; eauto.
Qed.

(** When the author of the targeted comment asks, delete-comment answers
    with the comments without the first comment of that author, which need
    not be the targeted one. *)
Lemma delete_comment_by_author
  (req : Request) (me : Identity) (w : World) (p : Post) (c : Comment) :
  req_user req = Some me ->
  post_at w (params_id req) = Some p ->
  comment_at p (params_comment_id req) = Some c ->
  comment_user c = id me ->
  exists l1 x l2,
    comments p = l1 ++ x :: l2 /\ comment_user x = id me /\
    ~ In (id me) (map comment_user l1) /\
    fst (delete_comment req w) = {| status := 200; body := JsonComments (l1 ++ l2) |}.
Proof.
  intros Hu Hp Hc Hme.
  assert (Hin : In (id me) (map comment_user (comments p))).
  { unfold comment_at in Hc. apply find_some in Hc as [Hin _].
    rewrite <- Hme. apply in_map, Hin. }
  destruct (splice_first_match comment_user (comments p) (id me) Hin)
    as (l1 & x & l2 & Hl & Hx & Hn & Hs).
  exists l1, x, l2. repeat (split; [assumption|]).
  apply post_at_Some in Hp as [Hoid Hf].
  unfold delete_comment. run_handler. rewrite Hoid, Hf. simpl.
  unfold comment_at in Hc. rewrite Hc, Hu. simpl.
  rewrite Hme, String.eqb_refl. simpl. rewrite Hs. reflexivity.
Qed.

End Properties.

(** * Examples on the concrete instance *)

Section Examples.
Import Fixture.
#[local] Existing Instance Fixture.externals.

Lemma by_alice_authenticated (i cid : string) (text : option string) :
  authenticated (by_alice i cid text) {| id := alice |}.
Proof.
  exists (token_of alice), {| decoded_user := Some {| id := alice |} |}.
  repeat split; try reflexivity. discriminate.
Defined.

Lemma by_bob_authenticated (i cid : string) (text : option string) :
  authenticated (by_bob i cid text) {| id := bob |}.
Proof.
  exists (token_of bob), {| decoded_user := Some {| id := bob |} |}.
  repeat split; try reflexivity. discriminate.
Defined.

Lemma auth_verifies_token_witness :
  auth (anonymous post1) =
    Respond {| status := 401; body := JsonMsg " no token authrization denied" |} /\
  auth (forged post1) =
    Respond {| status := 401; body := JsonMsg "token is not found" |} /\
  exists req', auth (by_alice post1 "" None) = Next req' /\
    req_user req' = Some {| id := alice |} /\
    header_x_auth_token req' = Some (token_of alice) /\
    params_id req' = post1 /\
    params_comment_id req' = "" /\
    body_text req' = None.
Proof.
  split; [|split].
  - apply (proj1 (auth_verifies_token (anonymous post1))). reflexivity.
  - apply (proj1 (proj2 (auth_verifies_token (forged post1))) "garbage").
    + reflexivity.
    + discriminate.
    + reflexivity.
  - apply (proj2 (proj2 (auth_verifies_token (by_alice post1 "" None)))
             (token_of alice) {| decoded_user := Some {| id := alice |} |}).
    + reflexivity.
    + discriminate.
    + reflexivity.
Defined.

Lemma bad_credential_rejected_witness :
  bad_credential (forged post1) /\
  exists msg,
    route DeletePost (forged post1) plain
    = ({| status := 401; body := JsonMsg msg |}, plain).
Proof.
  assert (Hb : bad_credential (forged post1)).
  { right. exists "garbage". split; reflexivity. }
  split; [exact Hb|].
  apply (bad_credential_rejected DeletePost (forged post1) plain Hb).
Defined.

Lemma delete_by_non_author_witness :
  (exists w',
     route DeletePost (by_bob post1 comment1 None) two_comments =
       ({| status := 401; body := JsonMsg "User not autherized" |}, w') /\
     posts w' = posts two_comments /\
     post_at w' post1 = Some (post_of [] [first_comment; second_comment])) /\
  (exists w',
     route DeleteComment (by_bob post1 comment1 None) two_comments =
       ({| status := 401; body := JsonMsg "User not authorized" |}, w') /\
     posts w' = posts two_comments /\
     post_at w' post1 = Some (post_of [] [first_comment; second_comment])).
Proof.
  destruct (delete_by_non_author (by_bob post1 comment1 None) {| id := bob |}
              two_comments (post_of [] [first_comment; second_comment])
              (by_bob_authenticated _ _ _) eq_refl) as [Hpost Hcomment].
  split.
  - apply Hpost. discriminate.
  - apply (Hcomment first_comment); [reflexivity | discriminate].
Defined.

Lemma like_twice_witness :
  exists r1 w1 p1 w2,
    route LikePost (by_bob post1_upper "" None) busy = (r1, w1) /\
    post_at w1 post1_upper = Some p1 /\
    likes_by bob (likes p1) = 1%nat /\
    (likes_by bob [{| like_user := alice |}] = 0%nat ->
     likes p1 = [{| like_user := bob |}; {| like_user := alice |}] /\
     r1 = {| status := 200; body := JsonLikes (likes p1) |}) /\
    route LikePost (by_bob post1_upper "" None) w1 =
      ({| status := 400; body := JsonMsg "post already liked" |}, w2) /\
    posts w2 = posts w1 /\
    Forall likes_unique (posts w2).
Proof.
  apply (like_twice (by_bob post1_upper "" None) {| id := bob |} busy older_post).
  - apply by_bob_authenticated.
  - reflexivity.
  - reflexivity.
  - reflexivity.
  - unfold busy, likes_unique. simpl.
    repeat first [ apply Forall_nil_2 | apply Forall_cons_2 | apply NoDup_nil_2
                 | apply NoDup_cons_2 | apply not_elem_of_nil ].
Defined.

Lemma unknown_id_outcomes_witness :
  (fst (route GetPost (by_bob "nope" "" (Some "hi")) busy)
     = {| status := 404; body := JsonMsg "post not found" |} /\
   fst (route AddComment (by_bob "nope" "" (Some "hi")) busy)
     = {| status := 500; body := Text "Server Error" |}) /\
  (fst (route DeletePost (by_bob nobody "" None) busy)
     = {| status := 404; body := JsonMsg "post not found" |} /\
   fst (route LikePost (by_bob nobody "" None) busy)
     = {| status := 500; body := Text "Server Error" |} /\
   route AddComment (by_bob nobody "" None) busy
     = ({| status := 400; body := JsonErrors ["Text is required"] |}, busy)) /\
  fst (route DeleteComment (by_alice post1_upper "nope" None) two_comments)
    = {| status := 404; body := JsonMsg "Comment does not exist" |}.
Proof.
  destruct (unknown_id_outcomes (by_bob "nope" "" (Some "hi")) {| id := bob |} busy
              (by_bob_authenticated _ _ _)) as [Hmalformed _].
  destruct (Hmalformed (or_introl eq_refl)) as (Hm404 & Hm500 & _).
  destruct (unknown_id_outcomes (by_bob nobody "" None) {| id := bob |} busy
              (by_bob_authenticated _ _ _)) as [Habsent _].
  destruct (Habsent (or_intror (conj eq_refl eq_refl))) as (Ha404 & Ha500 & Ha400).
  destruct (unknown_id_outcomes (by_alice post1_upper "nope" None) {| id := alice |}
              two_comments (by_alice_authenticated _ _ _)) as [_ Hcomment].
  split; [|split].
  - split.
    + apply (Hm404 GetPost). left. reflexivity.
    + apply (Hm500 AddComment). right. right. right. split; reflexivity.
  - split; [|split].
    + apply (Ha404 DeletePost). right. reflexivity.
    + apply (Ha500 LikePost). left. reflexivity.
    + apply Ha400. discriminate.
  - apply (Hcomment (post_of [] [first_comment; second_comment])); reflexivity.
Defined.

Lemma newest_first_witness :
  posts busy = [older_post; newest_post; bobs_post] /\
  fst (route ListPosts (by_bob post1 "" (Some "nice")) busy)
    = {| status := 200; body := JsonPosts [newest_post; bobs_post; older_post] |} /\
  (exists ps,
     fst (route ListPosts (by_bob post1 "" (Some "nice")) busy)
       = {| status := 200; body := JsonPosts ps |} /\
     Permutation ps (posts busy) /\
     StronglySorted (fun p q => post_date q <= post_date p) ps) /\
  (fst (route LikePost (by_bob post1 "" (Some "nice")) busy)
     = {| status := 200;
          body := JsonLikes [{| like_user := bob |}; {| like_user := alice |}] |} /\
   post_at (snd (route LikePost (by_bob post1 "" (Some "nice")) busy)) post1
     = Some (set_likes older_post [{| like_user := bob |}; {| like_user := alice |}])) /\
  exists c,
    comment_user c = bob /\ comment_text c = "nice" /\ comment_date c = 50 /\
    fst (route AddComment (by_bob post1 "" (Some "nice")) busy)
      = {| status := 200; body := JsonComments [c; second_comment; first_comment] |} /\
    post_at (snd (route AddComment (by_bob post1 "" (Some "nice")) busy)) post1
      = Some (set_comments older_post [c; second_comment; first_comment]).
Proof.
  destruct (newest_first (by_bob post1 "" (Some "nice")) {| id := bob |} busy
              (by_bob_authenticated _ _ _)) as (Hlist & Hlike & Hcomment).
  split; [reflexivity|]. split; [reflexivity|]. split; [exact Hlist|]. split.
  - apply (Hlike older_post); reflexivity.
  - destruct (Hcomment older_post
                {| user_id := bob; user_name := "Bob"; user_avatar := "avatar" |}
                "nice" eq_refl eq_refl eq_refl eq_refl ltac:(discriminate))
      as (c & Hu & Ht & _ & _ & Hd & Hr & Hs).
    exists c. auto.
Defined.

Lemma create_then_get_witness :
  exists p w1,
    route CreatePost (by_bob "" "" (Some "hello")) plain
      = ({| status := 200; body := JsonPost p |}, w1) /\
    post_text p = "hello" /\ post_user p = bob /\
    post_name p = "Bob" /\ post_avatar p = "avatar" /\
    forall req2 u2,
      authenticated req2 u2 -> params_id req2 = post_id p ->
      exists q,
        fst (route GetPost req2 w1) = {| status := 200; body := JsonPost q |} /\
        post_text q = post_text p /\ post_user q = post_user p /\
        post_name q = post_name p /\ post_avatar q = post_avatar p.
Proof.
  apply (create_then_get (by_bob "" "" (Some "hello")) {| id := bob |} plain
           {| user_id := bob; user_name := "Bob"; user_avatar := "avatar" |} "hello").
  - apply by_bob_authenticated.
  - reflexivity.
  - reflexivity.
  - reflexivity.
  - discriminate.
  - reflexivity.
  - reflexivity.
Defined.

Lemma delete_comment_not_persisted_witness :
  exists cs w',
    route DeleteComment (by_alice post1 comment1 None) two_comments
      = ({| status := 200; body := JsonComments cs |}, w') /\
    trace w' = ReadPost post1 :: trace two_comments /\
    posts w' = posts two_comments /\
    post_at w' post1 = Some (post_of [] [first_comment; second_comment]) /\
    In first_comment [first_comment; second_comment] /\
    forall req2 u2,
      authenticated req2 u2 -> params_id req2 = post1 ->
      fst (route GetPost req2 w')
        = {| status := 200;
             body := JsonPost (post_of [] [first_comment; second_comment]) |}.
Proof.
  apply (delete_comment_not_persisted (by_alice post1 comment1 None)
           {| id := alice |} two_comments
           (post_of [] [first_comment; second_comment]) first_comment).
  - apply by_alice_authenticated.
  - reflexivity.
  - reflexivity.
  - reflexivity.
Defined.

(** C7, as the claim has it, fails: PUT /posts/like/:id with an id that is
    no ObjectId is answered 500 "Server Error", not 404. *)
Lemma like_malformed_id_is_server_error :
  is_object_id "nope" = false /\
  authenticated (by_bob "nope" "" None) {| id := bob |} /\
  route LikePost (by_bob "nope" "" None) plain
    = ({| status := 500; body := Text "Server Error" |},
       log (ReadPost "nope") plain) /\
  status (fst (route LikePost (by_bob "nope" "" None) plain)) <> 404.
Proof.
  split; [reflexivity|]. split; [apply by_bob_authenticated|].
  split; [reflexivity|]. discriminate.
Qed.

(** C4: bob has not liked the post, whose only like is alice's; PUT
    /posts/unlike/:id by bob is answered 200 with an empty likes array, not
    400 "post has not yet been liked", and the like of alice is gone from
    the stored post. *)
Theorem unlike_by_stranger_removes_like :
  likes_by bob [{| like_user := alice |}] = 0%nat /\
  post_at liked_by_alice post1 = Some (post_of [{| like_user := alice |}] []) /\
  fst (route UnlikePost (by_bob post1 "" None) liked_by_alice)
    = {| status := 200; body := JsonLikes [] |} /\
  post_at (snd (route UnlikePost (by_bob post1 "" None) liked_by_alice)) post1
    = Some (post_of [] []).
Proof. repeat split; reflexivity. Qed.

(** C5: alice wrote both comments of the post; DELETE
    /posts/comment/:id/:comment_id by alice for the second comment is
    answered 200 with a comments array in which the second comment is
    still there and the first one is missing. *)
Theorem delete_comment_removes_another :
  comment_at (post_of [] [first_comment; second_comment]) comment2
    = Some second_comment /\
  fst (route DeleteComment (by_alice post1 comment2 None) two_comments)
    = {| status := 200; body := JsonComments [second_comment] |}.
Proof. split; reflexivity. Qed.

End Examples.

(** * Further properties of the router *)

Section Router.
Context `{Externals}.

(** ** What a handler can do to the posts collection *)

Lemma find_replace_other (j : string) (p p' : Post) (ps : list Post) :
  post_id p' = post_id p -> j <> post_id p ->
  List.find (has_id j) (map (fun q => if has_id (post_id p) q then p' else q) ps)
  = List.find (has_id j) ps.
Proof.
  intros Hid Hj. induction ps as [|q ps IH]; simpl; [reflexivity|].
  destruct (has_id (post_id p) q) eqn:Hq.
  - unfold has_id in Hq. apply String.eqb_eq in Hq.
    assert (Hp' : has_id j p' = false).
    { unfold has_id. rewrite Hid. apply String.eqb_neq. congruence. }
    assert (Hq' : has_id j q = false).
    { unfold has_id. rewrite Hq. apply String.eqb_neq. congruence. }
    rewrite Hp', Hq'. exact IH.
  - rewrite IH. reflexivity.
Qed.

Lemma find_filter_other (i j : string) (ps : list Post) :
  j <> i ->
  List.find (has_id j) (List.filter (fun q => negb (has_id i q)) ps)
  = List.find (has_id j) ps.
Proof.
  intros Hj. induction ps as [|q ps IH]; simpl; [reflexivity|].
  destruct (has_id i q) eqn:Hq; simpl.
  - unfold has_id in Hq. apply String.eqb_eq in Hq.
    assert (Hq' : has_id j q = false).
    { unfold has_id. rewrite Hq. apply String.eqb_neq. congruence. }
    rewrite Hq'. exact IH.
  - rewrite IH. reflexivity.
Qed.

Lemma find_filter_same (i : string) (ps : list Post) :
  List.find (has_id i) (List.filter (fun q => negb (has_id i q)) ps) = None.
Proof.
  induction ps as [|q ps IH]; simpl; [reflexivity|].
  destruct (has_id i q) eqn:Hq; simpl; [exact IH|]. rewrite Hq. exact IH.
Qed.

Lemma find_app_other (j : string) (p : Post) (ps : list Post) :
  j <> post_id p ->
  List.find (has_id j) (ps ++ [p]) = List.find (has_id j) ps.
Proof.
  intros Hj. induction ps as [|q ps IH]; simpl.
  - unfold has_id. destruct (String.eqb_spec (post_id p) j); [congruence|reflexivity].
  - rewrite IH. reflexivity.
Qed.

Lemma existsb_find_none (i : string) (ps : list Post) :
  existsb (has_id i) ps = false <-> List.find (has_id i) ps = None.
Proof.
  induction ps as [|q ps IH]; simpl; [tauto|].
  destruct (has_id i q); simpl; [split; discriminate | exact IH].
Qed.

Lemma filter_fresh_last (i : string) (p : Post) (ps : list Post) :
  existsb (has_id i) ps = false -> post_id p = i ->
  List.filter (fun q => negb (has_id i q)) (ps ++ [p]) = ps.
Proof.
  intros Hex Hid. induction ps as [|q ps IH]; simpl in *.
  - unfold has_id. rewrite Hid, String.eqb_refl. reflexivity.
  - apply orb_false_iff in Hex as [Hq Hex]. rewrite Hq. simpl. f_equal. auto.
Qed.

Lemma same_snapshot_likes (p : Post) (ls : list Like) :
  same_snapshot p (set_likes p ls).
Proof. unfold same_snapshot. simpl. tauto. Qed.

Lemma same_snapshot_comments (p : Post) (cs : list Comment) :
  same_snapshot p (set_comments p cs).
Proof. unfold same_snapshot. simpl. tauto. Qed.

(** After a handler has run, the collection is what it was, or has one more
    post at its end (create), or has the post of the request replaced by a
    post with other likes or comments (like, unlike, add-comment), or has
    lost the post of the request (delete); in the last three cases the
    answer is 200. *)
Lemma handler_posts_cases (e : Endpoint) (req : Request) (w : World) :
  posts (snd (handler e req w)) = posts w \/
  (e = CreatePost /\ status (fst (handler e req w)) = 200 /\
   exists p,
     post_id p = new_object_id (next_oid w) /\
     existsb (has_id (post_id p)) (posts w) = false /\
     posts (snd (handler e req w)) = posts w ++ [p]) \/
  ((e = LikePost \/ e = UnlikePost \/ e = AddComment) /\
   status (fst (handler e req w)) = 200 /\
   exists p p',
     post_at w (params_id req) = Some p /\ same_snapshot p p' /\
     posts (snd (handler e req w))
       = map (fun q => if has_id (post_id p) q then p' else q) (posts w)) \/
  (e = DeletePost /\ status (fst (handler e req w)) = 200 /\
   exists p,
     post_at w (params_id req) = Some p /\
     posts (snd (handler e req w))
       = List.filter (fun q => negb (has_id (post_id p) q)) (posts w)).
Proof.
  destruct e; simpl handler.
  - unfold create_post. destruct (negb _); [left; reflexivity|]. run_handler.
    destruct (req_user req) as [me|]; simpl; [|left; reflexivity].
    destruct (is_object_id (id me)); simpl; [|left; reflexivity].
    destruct (List.find _ (users w)); simpl; [|left; reflexivity].
    destruct (existsb _ (posts w)) eqn:Hex; simpl; [left; reflexivity|].
    right. left. split; [reflexivity|]. split; [reflexivity|].
    eexists. split; [|split; [|reflexivity]]; [reflexivity | exact Hex].
  - left. reflexivity.
  - left. unfold get_post. run_handler.
    destruct (is_object_id (params_id req)); simpl; [|reflexivity].
    destruct (List.find _ (posts w)); reflexivity.
  - unfold delete_post, post_at. run_handler.
    destruct (is_object_id (params_id req)); simpl; [|left; reflexivity].
    destruct (List.find _ (posts w)) as [p|]; simpl; [|left; reflexivity].
    destruct (req_user req) as [me|]; simpl; [|left; reflexivity].
    destruct (negb _); simpl; [left; reflexivity|].
    right. right. right. split; [reflexivity|]. split; [reflexivity|].
    exists p. split; reflexivity.
  - unfold like_post, post_at. run_handler.
    destruct (is_object_id (params_id req)); simpl; [|left; reflexivity].
    destruct (List.find _ (posts w)) as [p|]; simpl; [|left; reflexivity].
    destruct (req_user req) as [me|]; simpl; [|left; reflexivity].
    destruct (0 <? _); simpl; [left; reflexivity|].
    destruct (is_object_id (id me)); simpl; [|left; reflexivity].
    right. right. left. split; [auto|]. split; [reflexivity|].
    eexists p, _. split; [reflexivity|]. split; [apply same_snapshot_likes|reflexivity].
  - unfold unlike_post, post_at. run_handler.
    destruct (is_object_id (params_id req)); simpl; [|left; reflexivity].
    destruct (List.find _ (posts w)) as [p|]; simpl; [|left; reflexivity].
    destruct (req_user req) as [me|]; simpl; [|left; reflexivity].
    right. right. left. split; [auto|]. split; [reflexivity|].
    eexists p, _. split; [reflexivity|]. split; [apply same_snapshot_likes|reflexivity].
  - unfold add_comment, post_at. destruct (negb _); [left; reflexivity|]. run_handler.
    destruct (req_user req) as [me|]; simpl; [|left; reflexivity].
    destruct (is_object_id (id me)); simpl; [|left; reflexivity].
    destruct (is_object_id (params_id req)); simpl; [|left; reflexivity].
    destruct (List.find _ (users w)); simpl; [|left; reflexivity].
    destruct (List.find _ (posts w)) as [p|]; simpl; [|left; reflexivity].
    right. right. left. split; [auto|]. split; [reflexivity|].
    eexists p, _. split; [reflexivity|].
    split; [apply same_snapshot_comments|reflexivity].
  - left. apply delete_comment_reads_only.
Qed.

Lemma route_posts_cases (e : Endpoint) (req : Request) (w : World) :
  posts (snd (route e req w)) = posts w \/
  (e = CreatePost /\ status (fst (route e req w)) = 200 /\
   exists p,
     post_id p = new_object_id (next_oid w) /\
     existsb (has_id (post_id p)) (posts w) = false /\
     posts (snd (route e req w)) = posts w ++ [p]) \/
  ((e = LikePost \/ e = UnlikePost \/ e = AddComment) /\
   status (fst (route e req w)) = 200 /\
   exists p p',
     post_at w (params_id req) = Some p /\ same_snapshot p p' /\
     posts (snd (route e req w))
       = map (fun q => if has_id (post_id p) q then p' else q) (posts w)) \/
  (e = DeletePost /\ status (fst (route e req w)) = 200 /\
   exists p,
     post_at w (params_id req) = Some p /\
     posts (snd (route e req w))
       = List.filter (fun q => negb (has_id (post_id p) q)) (posts w)).
Proof.
  unfold route. destruct (auth req) as [r|req'] eqn:Hauth; [left; reflexivity|].
  assert (Hid : params_id req' = params_id req).
  { unfold auth in Hauth. destruct (falsy_token _); [discriminate|].
    destruct (header_x_auth_token req); [|discriminate].
    destruct (jwt_verify _ _); [|discriminate].
    injection Hauth as <-. reflexivity. }
  rewrite <- Hid. apply handler_posts_cases.
Qed.

Ltac crack_handler :=
  repeat (simpl;
    match goal with
    | |- context [validationResult ?r] => destruct (validationResult r)
    | |- context [is_object_id ?i] => destruct (is_object_id i)
    | |- context [List.find ?f ?l] => destruct (List.find f l)
    | |- context [req_user ?r] => destruct (req_user r)
    | |- context [existsb ?f ?l] => destruct (existsb f l)
    | |- context [negb ?b] => destruct b
    | |- context [Z.ltb ?a ?b] => destruct (Z.ltb a b)
    end).

Lemma auth_respond_401 (req : Request) (r : Response) :
  auth req = Respond r -> status r = 401 /\ exists msg, body r = JsonMsg msg.
Proof.
  unfold auth. destruct (falsy_token _).
  - intros [= <-]. simpl. eauto.
  - destruct (header_x_auth_token req); [|intros [= <-]; simpl; eauto].
    destruct (jwt_verify _ _); [discriminate|]. intros [= <-]. simpl. eauto.
Qed.

Lemma find_app_some {A} (f : A -> bool) (l k : list A) (x : A) :
  List.find f l = Some x -> List.find f (l ++ k) = Some x.
Proof.
  induction l as [|a l IH]; simpl; [discriminate|].
  destruct (f a); [tauto | exact IH].
Qed.

Lemma same_snapshot_refl (p : Post) : same_snapshot p p.
Proof. unfold same_snapshot. tauto. Qed.

(** ** Frame properties *)

(** X1: a request that is not answered 200 leaves the posts collection as
    it was. *)
Theorem failed_request_writes_nothing (e : Endpoint) (req : Request) (w : World) :
  status (fst (route e req w)) <> 200 ->
  posts (snd (route e req w)) = posts w.
Proof.
  intros Hs.
  destruct (route_posts_cases e req w)
    as [Hsame | [(_ & H200 & _) | [(_ & H200 & _) | (_ & H200 & _)]]];
    [exact Hsame | contradiction..].
Qed.

(** X2: no endpoint writes the users collection, whatever the request. *)
Theorem users_never_written (e : Endpoint) (req : Request) (w : World) :
  users (snd (route e req w)) = users w.
Proof.
  unfold route. destruct (auth req) as [r|req']; [reflexivity|].
  destruct e; simpl handler;
    [unfold create_post | unfold list_posts | unfold get_post
    | unfold delete_post | unfold like_post | unfold unlike_post
    | unfold add_comment | unfold delete_comment];
    run_handler; crack_handler; reflexivity.
Qed.

(** X3: a request leaves every post alone whose ObjectId is neither the
    one the id in its path casts to nor the one generated for a new post: a
    lookup of such an id, in whatever spelling, gives what it gave before. *)
Theorem other_posts_untouched
  (e : Endpoint) (req : Request) (w : World) (j : string) :
  canonical j <> canonical (params_id req) ->
  canonical j <> new_object_id (next_oid w) ->
  post_at (snd (route e req w)) j = post_at w j.
Proof.
  intros Hj Hnew. unfold post_at. destruct (is_object_id j); [|reflexivity].
  destruct (route_posts_cases e req w)
    as [-> | [(_ & _ & p & Hid & _ & ->)
           | [(_ & _ & p & p' & Hp & Hsnap & ->) | (_ & _ & p & Hp & ->)]]].
  - reflexivity.
  - apply find_app_other. congruence.
  - apply find_replace_other; [apply Hsnap|].
    rewrite (post_at_id _ _ _ Hp). exact Hj.
  - apply find_filter_other. rewrite (post_at_id _ _ _ Hp). exact Hj.
Qed.

(** X4: whatever request is served, a stored post is afterwards either
    gone, which only a DELETE does whose path id casts to the ObjectId of
    the post, or stored with the id, user, name, avatar, text and date it
    had: only its likes and comments can change. *)
Theorem snapshot_never_changes
  (e : Endpoint) (req : Request) (w : World) (i : string) (p : Post) :
  post_at w i = Some p ->
  (e = DeletePost /\ canonical (params_id req) = canonical i /\
   post_at (snd (route e req w)) i = None) \/
  (exists p', post_at (snd (route e req w)) i = Some p' /\ same_snapshot p p').
Proof.
  intros Hp. pose proof Hp as Hp0. apply post_at_Some in Hp0 as [Hoid Hf].
  destruct (route_posts_cases e req w)
    as [Hsame | [(_ & _ & q & Hid & _ & Hposts)
           | [(_ & _ & q & q' & Hq & Hsnap & Hposts) | (He & _ & q & Hq & Hposts)]]].
  - right. exists p. split; [|apply same_snapshot_refl].
    rewrite (post_at_same_posts _ _ _ Hsame). exact Hp.
  - right. exists p. split; [|apply same_snapshot_refl].
    apply post_at_Some. split; [exact Hoid|]. rewrite Hposts.
    apply find_app_some, Hf.
  - right. pose proof (post_at_id _ _ _ Hq) as Hqid.
    pose proof Hq as Hq0. apply post_at_Some in Hq0 as [_ Hfq].
    destruct (String.string_dec (canonical i) (canonical (params_id req))) as [Heq|Hne].
    + rewrite <- Heq in Hfq. assert (q = p) by congruence. subst q.
      exists q'. split; [|exact Hsnap].
      eapply post_at_saved; [| exact Hp |].
      * destruct Hsnap as [Hid' _]. congruence.
      * rewrite Hposts. destruct Hsnap as [Hid' _].
        rewrite Hid'. reflexivity.
    + exists p. split; [|apply same_snapshot_refl].
      apply post_at_Some. split; [exact Hoid|]. rewrite Hposts.
      rewrite find_replace_other; [exact Hf | apply Hsnap | congruence].
  - pose proof (post_at_id _ _ _ Hq) as Hqid.
    destruct (String.string_dec (canonical i) (canonical (params_id req))) as [Heq|Hne].
    + left. split; [exact He|]. split; [auto|].
      unfold post_at. rewrite Hoid, Hposts, Hqid, <- Heq. apply find_filter_same.
    + right. exists p. split; [|apply same_snapshot_refl].
      apply post_at_Some. split; [exact Hoid|]. rewrite Hposts.
      rewrite find_filter_other; [exact Hf | congruence].
Qed.

(** X5: serving any sequence of requests whose tokens carry the id of
    their user as the store prints it keeps "at most one like per user and
    post"; so it holds of every store that started empty. *)
Theorem likes_unique_served (reqs : list (Endpoint * Request)) (w : World) :
  (forall e req u, In (e, req) reqs -> authenticated req u -> canonical (id u) = id u) ->
  Forall likes_unique (posts w) ->
  Forall likes_unique (posts (serve reqs w)).
Proof.
  revert w. induction reqs as [|[e req] reqs IH]; intros w Hcan Hw; simpl; [exact Hw|].
  apply IH.
  - intros e' req' u Hin. apply (Hcan e'). right. exact Hin.
  - apply route_keeps_likes_unique; [|exact Hw].
    intros u. apply (Hcan e). left. reflexivity.
Qed.

(** ** Answers *)

(** X6: the statuses an endpoint can answer with.  No endpoint answers
    anything but 200, 400, 401, 404 and 500; 400 comes only from create,
    add-comment and like, and 404 only from get, delete and
    delete-comment. *)
Theorem status_by_endpoint (e : Endpoint) (req : Request) (w : World) :
  let s := status (fst (route e req w)) in
  match e with
  | CreatePost | AddComment | LikePost => s = 200 \/ s = 400 \/ s = 401 \/ s = 500
  | ListPosts | UnlikePost => s = 200 \/ s = 401 \/ s = 500
  | GetPost | DeletePost | DeleteComment => s = 200 \/ s = 401 \/ s = 404 \/ s = 500
  end.
Proof.
  cbv zeta. unfold route. destruct (auth req) as [r|req'] eqn:Hauth.
  - apply auth_respond_401 in Hauth as [Hs _]. destruct e; simpl; rewrite Hs; tauto.
  - destruct e; simpl handler;
      [unfold create_post | unfold list_posts | unfold get_post
      | unfold delete_post | unfold like_post | unfold unlike_post
      | unfold add_comment | unfold delete_comment];
      run_handler; unfold catch_404; crack_handler; tauto.
Qed.

(** X7: create and add-comment answer 400 with the error "Text is
    required" when the body has no text or an empty one, before anything is
    read from the store: the world is what it was. *)
Theorem empty_text_rejected (e : Endpoint) (req : Request) (u : Identity) (w : World) :
  authenticated req u ->
  e = CreatePost \/ e = AddComment ->
  body_text req = None \/ body_text req = Some "" ->
  route e req w =
    ({| status := 400; body := JsonErrors ["Text is required"] |}, w).
Proof.
  intros Ha He Ht. rewrite (route_authenticated _ _ _ _ Ha).
  assert (Hv : validationResult (set_req_user req (Some u)) = ["Text is required"]).
  { unfold validationResult. simpl. destruct Ht as [-> | ->]; reflexivity. }
  destruct He as [-> | ->]; simpl handler;
    [unfold create_post | unfold add_comment]; rewrite Hv; reflexivity.
Qed.

(** A token header that is present but empty is answered like a missing
    one, 401 with the "no token" message, by every endpoint; [jwt.verify]
    has no say and the world is what it was. *)
Lemma empty_token_rejected (e : Endpoint) (req : Request) (w : World) :
  header_x_auth_token req = Some "" ->
  route e req w =
    ({| status := 401; body := JsonMsg " no token authrization denied" |}, w).
Proof. intros Ht. unfold route. rewrite (auth_empty_token _ Ht). reflexivity. Qed.

(** ** Deleting a post *)

Lemma delete_post_run (req : Request) (me : Identity) (w : World) (p : Post) :
  req_user req = Some me ->
  post_at w (params_id req) = Some p ->
  post_user p = id me ->
  delete_post req w =
    (res_json (JsonMsg "post removed"),
     set_posts (log (RemovePost (post_id p)) (log (ReadPost (params_id req)) w))
       (List.filter (fun q => negb (has_id (post_id p) q)) (posts w))).
Proof.
  intros Hu Hp Hme. apply post_at_Some in Hp as [Hoid Hf].
  unfold delete_post. run_handler. rewrite Hoid, Hf, Hu. simpl.
  rewrite Hme, String.eqb_refl. reflexivity.
Qed.

(** X8: the author of a post can delete it: DELETE /posts/:id answers 200
    "post removed", the store has no post for the id any more, and a GET or
    a second DELETE of the id is answered 404 "post not found". *)
Theorem delete_post_by_author (req : Request) (u : Identity) (w : World) (p : Post) :
  authenticated req u ->
  post_at w (params_id req) = Some p ->
  post_user p = id u ->
  exists w',
    route DeletePost req w = ({| status := 200; body := JsonMsg "post removed" |}, w') /\
    post_at w' (params_id req) = None /\
    forall req2 u2,
      authenticated req2 u2 -> params_id req2 = params_id req ->
      fst (route GetPost req2 w') = {| status := 404; body := JsonMsg "post not found" |} /\
      fst (route DeletePost req2 w') = {| status := 404; body := JsonMsg "post not found" |}.
Proof.
  intros Ha Hp Hme. pose proof (post_at_id _ _ _ Hp) as Hid.
  pose proof Hp as Hp0. apply post_at_Some in Hp0 as [Hoid _].
  eexists. split; [|split].
  - rewrite (route_authenticated _ _ _ _ Ha). simpl handler.
    rewrite (delete_post_run _ u w p); [reflexivity | reflexivity | exact Hp | exact Hme].
  - unfold post_at. rewrite Hoid. simpl. rewrite Hid. apply find_filter_same.
  - intros req2 u2 Ha2 Hid2.
    assert (Hnone : post_at
              (set_posts (log (RemovePost (post_id p)) (log (ReadPost (params_id req)) w))
                 (List.filter (fun q => negb (has_id (post_id p) q)) (posts w)))
              (params_id req2) = None).
    { unfold post_at. rewrite Hid2, Hoid. simpl. rewrite Hid. apply find_filter_same. }
    rewrite !(route_authenticated _ _ _ _ Ha2). simpl handler.
    rewrite get_post_unknown, delete_post_unknown by exact Hnone.
    split; reflexivity.
Qed.

Lemma create_post_run
  (req : Request) (me : Identity) (w : World) (usr : User) (t : string) :
  req_user req = Some me ->
  is_object_id (id me) = true ->
  List.find (fun x => String.eqb (user_id x) (id me)) (users w) = Some usr ->
  body_text req = Some t -> t <> "" ->
  existsb (has_id (new_object_id (next_oid w))) (posts w) = false ->
  let p := {| post_id := new_object_id (next_oid w); post_user := id me;
              post_name := user_name usr; post_avatar := user_avatar usr;
              post_text := t; post_date := clock w; likes := []; comments := [] |} in
  create_post req w =
    (res_json (JsonPost p),
     set_posts (log (InsertPost (post_id p)) (bump_oid (log (ReadUser (id me)) w)))
       (posts w ++ [p])).
Proof.
  intros Hu Hoidu Hfu Ht Hne Hfresh.
  unfold create_post, validationResult, text_of. rewrite Ht.
  destruct (String.eqb_spec t "") as [->|_]; [congruence|]. simpl.
  run_handler. rewrite Hu. simpl. rewrite Hoidu. simpl. rewrite Hfu. simpl.
  rewrite Hfresh. reflexivity.
Qed.

(** X9: creating a post and then deleting it, as its author, gives back
    the posts collection there was before the post was created. *)
Theorem create_then_delete
  (req req2 : Request) (u : Identity) (w : World) (usr : User) (t : string) :
  authenticated req u ->
  is_object_id (id u) = true ->
  List.find (fun x => String.eqb (user_id x) (id u)) (users w) = Some usr ->
  body_text req = Some t -> t <> "" ->
  is_object_id (new_object_id (next_oid w)) = true ->
  existsb (has_id (new_object_id (next_oid w))) (posts w) = false ->
  authenticated req2 u ->
  params_id req2 = new_object_id (next_oid w) ->
  exists p w1 w2,
    route CreatePost req w = ({| status := 200; body := JsonPost p |}, w1) /\
    post_id p = params_id req2 /\
    route DeletePost req2 w1 = ({| status := 200; body := JsonMsg "post removed" |}, w2) /\
    posts w2 = posts w.
Proof.
  intros Ha Hoidu Hfu Ht Hne Hoid Hfresh Ha2 Hid2.
  set (p := {| post_id := new_object_id (next_oid w); post_user := id u;
               post_name := user_name usr; post_avatar := user_avatar usr;
               post_text := t; post_date := clock w; likes := []; comments := [] |}).
  set (w1 := set_posts (log (InsertPost (post_id p)) (bump_oid (log (ReadUser (id u)) w)))
               (posts w ++ [p])).
  assert (Hp : post_at w1 (params_id req2) = Some p).
  { apply post_at_Some. rewrite Hid2. split; [exact Hoid|].
    rewrite canonical_new_object_id.
    apply find_fresh_last; [exact Hfresh | reflexivity]. }
  exists p, w1. eexists. split; [|split; [|split]].
  - rewrite (route_authenticated _ _ _ _ Ha). simpl handler.
    rewrite (create_post_run _ u w usr t) by (try reflexivity; assumption).
    reflexivity.
  - symmetry. exact Hid2.
  - rewrite (route_authenticated _ _ _ _ Ha2). simpl handler.
    rewrite (delete_post_run _ u w1 p); [reflexivity | reflexivity | exact Hp | reflexivity].
  - simpl. apply filter_fresh_last; [exact Hfresh | reflexivity].
Qed.

(** ** Like and unlike *)

Lemma set_likes_same (p : Post) (ls : list Like) :
  set_likes (set_likes p ls) (likes p) = p.
Proof. destruct p. reflexivity. Qed.

Lemma splice_head {A} (x : A) (xs : list A) : splice 0 1 (x :: xs) = xs.
Proof. apply (splice_at [] xs x). Qed.

(** X10: a like followed by an unlike of the same user, who had not liked
    the post before and whose token carries the id of the user as the store
    prints it, is answered with the likes there were and leaves the stored
    post as it was before the like. *)
Theorem like_then_unlike (req : Request) (u : Identity) (w : World) (p : Post) :
  authenticated req u ->
  is_object_id (id u) = true ->
  canonical (id u) = id u ->
  post_at w (params_id req) = Some p ->
  likes_by (id u) (likes p) = 0%nat ->
  exists w1 w2,
    route LikePost req w =
      ({| status := 200; body := JsonLikes ({| like_user := id u |} :: likes p) |}, w1) /\
    route UnlikePost req w1 =
      ({| status := 200; body := JsonLikes (likes p) |}, w2) /\
    post_at w2 (params_id req) = Some p.
Proof.
  intros Ha Hcast Hcan Hp Hz. pose proof (post_at_id _ _ _ Hp) as Hid.
  set (p1 := set_likes p ({| like_user := id u |} :: likes p)).
  set (w1 := set_posts (log (UpdatePost (post_id p)) (log (ReadPost (params_id req)) w))
               (map (fun q => if has_id (post_id p) q then p1 else q) (posts w))).
  assert (Hp1 : post_at w1 (params_id req) = Some p1).
  { eapply post_at_saved; [exact Hid | exact Hp | reflexivity]. }
  assert (Hsplice : splice (indexOf (map like_user (likes p1)) (id u)) 1 (likes p1)
                    = likes p).
  { simpl. rewrite String.eqb_refl. apply splice_head. }
  exists w1. eexists. split; [|split].
  - rewrite (route_authenticated _ _ _ _ Ha). simpl handler.
    rewrite (like_post_fresh _ u w p) by (try reflexivity; assumption).
    cbv zeta. rewrite Hcan. reflexivity.
  - rewrite (route_authenticated _ _ _ _ Ha). simpl handler.
    pose proof (unlike_post_run (set_req_user req (Some u)) u w1 p1 eq_refl Hp1) as Hrun.
    cbv zeta in Hrun. rewrite Hsplice in Hrun. rewrite Hrun. reflexivity.
  - eapply post_at_saved; [| exact Hp1 |].
    + exact Hid.
    + cbn [posts set_posts]. unfold p1.
      rewrite (set_likes_same p). reflexivity.
Qed.

Lemma filter_others_id (u : string) (ls : list Like) :
  ~ In u (map like_user ls) ->
  List.filter (fun l => negb (by_user u l)) ls = ls.
Proof.
  induction ls as [|l ls IH]; simpl; [reflexivity|]. intros Hn.
  unfold by_user at 1. destruct (String.eqb_spec (like_user l) u) as [Heq|_]; [tauto|].
  simpl. f_equal. apply IH. tauto.
Qed.

Lemma unique_split (u : string) (l1 l2 : list Like) (x : Like) :
  NoDup (map like_user (l1 ++ x :: l2)) -> like_user x = u ->
  List.filter (fun l => negb (by_user u l)) (l1 ++ x :: l2) = l1 ++ l2.
Proof.
  intros Hnd Hx. rewrite map_app in Hnd. simpl in Hnd.
  apply NoDup_app in Hnd as (_ & Hdisj & Hnd2).
  apply NoDup_cons in Hnd2 as [Hn2 _].
  rewrite List.filter_app. simpl. unfold by_user at 2.
  rewrite Hx, String.eqb_refl. simpl.
  rewrite !filter_others_id; [reflexivity | |].
  - rewrite <- Hx, <- list_elem_of_In. exact Hn2.
  - intros Hin. apply list_elem_of_In in Hin. apply (Hdisj _ Hin).
    rewrite Hx. left.
Qed.

Lemma likes_by_others (u : string) (ls : list Like) :
  likes_by u (List.filter (fun l => negb (by_user u l)) ls) = 0%nat.
Proof.
  unfold likes_by. induction ls as [|l ls IH]; simpl; [reflexivity|].
  destruct (by_user u l) eqn:Hb; simpl; [exact IH|]. rewrite Hb. exact IH.
Qed.

(** X11: when the user has liked the post, and the post has at most one
    like per user, unlike answers 200 with the likes of the other users in
    their order, stores them, and the user has no like on the post
    afterwards. *)
Theorem unlike_removes_own_like (req : Request) (u : Identity) (w : World) (p : Post) :
  authenticated req u ->
  post_at w (params_id req) = Some p ->
  likes_unique p ->
  In (id u) (map like_user (likes p)) ->
  let others := List.filter (fun l => negb (by_user (id u) l)) (likes p) in
  fst (route UnlikePost req w) = {| status := 200; body := JsonLikes others |} /\
  post_at (snd (route UnlikePost req w)) (params_id req) = Some (set_likes p others) /\
  likes_by (id u) others = 0%nat.
Proof.
  intros Ha Hp Hnd Hin others.
  rewrite (route_authenticated _ _ _ _ Ha). simpl handler.
  destruct (unlike_post_liked (set_req_user req (Some u)) u w p eq_refl Hp Hin)
    as (l1 & x & l2 & Hl & Hx & _ & Hr & Hs).
  assert (Ho : others = l1 ++ l2).
  { unfold others. rewrite Hl. apply unique_split; [|exact Hx].
    unfold likes_unique in Hnd. rewrite Hl in Hnd. exact Hnd. }
  rewrite Ho. split; [exact Hr|]. split; [exact Hs|].
  rewrite <- Ho. apply likes_by_others.
Qed.

(** X12: when the user has not liked the post, unlike does not refuse: it
    answers 200, and the stored post loses its last like, the oldest one,
    whoever gave it (a post without likes stays without likes). *)
Theorem unlike_without_like_removes_last
  (req : Request) (u : Identity) (w : World) (p : Post) :
  authenticated req u ->
  post_at w (params_id req) = Some p ->
  ~ In (id u) (map like_user (likes p)) ->
  fst (route UnlikePost req w)
    = {| status := 200; body := JsonLikes (removelast (likes p)) |} /\
  post_at (snd (route UnlikePost req w)) (params_id req)
    = Some (set_likes p (removelast (likes p))).
Proof.
  intros Ha Hp Hn. rewrite (route_authenticated _ _ _ _ Ha). simpl handler.
  apply (unlike_post_not_liked (set_req_user req (Some u)) u w p eq_refl Hp Hn).
Qed.

(** ** The answer of delete-comment *)

(** X13: when the author of the targeted comment asks, delete-comment
    answers 200 with the comments of the post without the first comment
    written by the requester; this is the targeted comment exactly when no
    earlier comment of the post is by the requester. *)
Theorem delete_comment_answer
  (req : Request) (u : Identity) (w : World) (p : Post) (c : Comment) :
  authenticated req u ->
  post_at w (params_id req) = Some p ->
  comment_at p (params_comment_id req) = Some c ->
  comment_user c = id u ->
  (exists l1 x l2,
     comments p = l1 ++ x :: l2 /\ comment_user x = id u /\
     ~ In (id u) (map comment_user l1) /\
     fst (route DeleteComment req w)
       = {| status := 200; body := JsonComments (l1 ++ l2) |}) /\
  (forall l1 l2,
     comments p = l1 ++ c :: l2 -> ~ In (id u) (map comment_user l1) ->
     fst (route DeleteComment req w)
       = {| status := 200; body := JsonComments (l1 ++ l2) |}).
Proof.
  intros Ha Hp Hc Hu. rewrite (route_authenticated _ _ _ _ Ha). simpl handler.
  split.
  - apply (delete_comment_by_author (set_req_user req (Some u)) u w p c eq_refl Hp Hc Hu).
  - intros l1 l2 Hl Hn. apply post_at_Some in Hp as [Hoid Hf].
    unfold delete_comment. run_handler. rewrite Hoid, Hf. simpl.
    unfold comment_at in Hc. rewrite Hc. simpl.
    rewrite Hu, String.eqb_refl. simpl.
    rewrite Hl, map_app. simpl. rewrite Hu, indexOf_first by exact Hn.
    rewrite length_map, splice_at. reflexivity.
Qed.

(** ** Identities the store does not know *)


Lemma auth_without_user (req : Request) (t : string) (d : Decoded) :
  header_x_auth_token req = Some t -> t <> "" ->
  jwt_verify t jwtToken = Some d -> decoded_user d = None ->
  auth req = Next (set_req_user req None).
Proof.
  intros Ht Hne Hv Hd. unfold auth. rewrite Ht. simpl.
  destruct (String.eqb_spec t "") as [->|_]; [congruence|].
  rewrite Hv, Hd. reflexivity.
Qed.

(** X15: a token that verifies but whose payload has no [user] field
    passes the middleware with [req.user] undefined.  Like, unlike, and
    create and add-comment with a valid text, then answer 500 and write
    nothing; GET /posts/:id, which does not look at the identity, answers
    with the post; DELETE /posts/:id of an existing post answers 500 and the
    post stays. *)
Theorem token_without_user (req : Request) (w : World) (t : string) (d : Decoded) :
  header_x_auth_token req = Some t -> t <> "" ->
  jwt_verify t jwtToken = Some d -> decoded_user d = None ->
  (forall e,
     e = LikePost \/ e = UnlikePost \/
       ((e = CreatePost \/ e = AddComment) /\ validationResult req = []) ->
     fst (route e req w) = {| status := 500; body := Text "Server Error" |} /\
     posts (snd (route e req w)) = posts w) /\
  (forall p,
     post_at w (params_id req) = Some p ->
     fst (route GetPost req w) = {| status := 200; body := JsonPost p |} /\
     fst (route DeletePost req w) = {| status := 500; body := Text "Server Error" |} /\
     posts (snd (route DeletePost req w)) = posts w).
Proof.
  intros Ht Hne Hv Hd. unfold route.
  rewrite (auth_without_user req t d Ht Hne Hv Hd). split.
  - intros e [-> | [-> | [[-> | ->] Hval]]]; simpl handler;
      [unfold like_post | unfold unlike_post | unfold create_post | unfold add_comment];
      try (change (validationResult (set_req_user req None)) with (validationResult req);
           rewrite Hval);
      simpl; run_handler; crack_handler; split; reflexivity.
  - intros p Hp. apply post_at_Some in Hp as [Hoid Hf]. simpl handler.
    unfold get_post, delete_post. run_handler. rewrite Hoid, Hf. simpl. auto.
Qed.

(** ** Reading after writing *)

(** X16: a post that was just created is in the answer of GET /posts, which
    holds the posts there were and the new one. *)
Theorem create_then_list
  (req : Request) (u : Identity) (w : World) (usr : User) (t : string) :
  authenticated req u ->
  is_object_id (id u) = true ->
  List.find (fun x => String.eqb (user_id x) (id u)) (users w) = Some usr ->
  body_text req = Some t -> t <> "" ->
  existsb (has_id (new_object_id (next_oid w))) (posts w) = false ->
  exists p w1,
    route CreatePost req w = ({| status := 200; body := JsonPost p |}, w1) /\
    forall req2 u2,
      authenticated req2 u2 ->
      exists ps,
        fst (route ListPosts req2 w1) = {| status := 200; body := JsonPosts ps |} /\
        In p ps /\ Permutation ps (posts w ++ [p]).
Proof.
  intros Ha Hoidu Hfu Ht Hne Hfresh.
  eexists. eexists. split.
  - rewrite (route_authenticated _ _ _ _ Ha). simpl handler.
    rewrite (create_post_run _ u w usr t) by (try reflexivity; assumption).
    reflexivity.
  - intros req2 u2 Ha2. eexists. split; [|split].
    + rewrite (route_authenticated _ _ _ _ Ha2). reflexivity.
    + simpl. apply list_elem_of_In. rewrite merge_sort_Permutation.
      apply list_elem_of_In, in_or_app. right. left. reflexivity.
    + simpl. apply merge_sort_Permutation.
Qed.

(** X17: GET /posts, GET /posts/:id and DELETE
    /posts/comment/:id/:comment_id never change the posts collection,
    whatever they answer. *)
Theorem read_endpoints_write_nothing (e : Endpoint) (req : Request) (w : World) :
  e = ListPosts \/ e = GetPost \/ e = DeleteComment ->
  posts (snd (route e req w)) = posts w.
Proof.
  intros He.
  destruct (route_posts_cases e req w)
    as [Hsame | [(Hc & _) | [(Hc & _) | (Hc & _)]]]; [exact Hsame | exfalso..];
    intuition congruence.
Qed.

Lemma add_comment_run
  (req : Request) (me : Identity) (w : World) (usr : User) (t : string) (p : Post) :
  req_user req = Some me ->
  is_object_id (id me) = true ->
  List.find (fun x => String.eqb (user_id x) (id me)) (users w) = Some usr ->
  body_text req = Some t -> t <> "" ->
  post_at w (params_id req) = Some p ->
  let c := {| comment_id := new_object_id (next_oid w); comment_user := id me;
              comment_name := user_name usr; comment_avatar := user_avatar usr;
              comment_text := t; comment_date := clock w |} in
  let p' := set_comments p (c :: comments p) in
  add_comment req w =
    (res_json (JsonComments (comments p')),
     set_posts
       (log (UpdatePost (post_id p))
          (bump_oid (log (ReadPost (params_id req)) (log (ReadUser (id me)) w))))
       (map (fun q => if has_id (post_id p) q then p' else q) (posts w))).
Proof.
  intros Hu Hoidu Hfu Ht Hne Hp. apply post_at_Some in Hp as [Hoid Hf].
  unfold add_comment, validationResult, text_of. rewrite Ht.
  destruct (String.eqb_spec t "") as [->|_]; [congruence|]. simpl.
  run_handler. rewrite Hu. simpl. rewrite Hoidu. simpl. rewrite Hoid. simpl.
  rewrite Hfu, Hf. reflexivity.
Qed.

(** X18: two comments added one after the other to a post are stored, and
    answered, with the second before the first and both before the comments
    the post had: the comments stay in the reverse of the order in which
    they were added. *)
Theorem comments_stack
  (req1 req2 : Request) (u1 u2 : Identity) (usr1 usr2 : User) (t1 t2 : string)
  (w : World) (p : Post) :
  authenticated req1 u1 -> authenticated req2 u2 ->
  params_id req2 = params_id req1 ->
  is_object_id (id u1) = true -> is_object_id (id u2) = true ->
  List.find (fun x => String.eqb (user_id x) (id u1)) (users w) = Some usr1 ->
  List.find (fun x => String.eqb (user_id x) (id u2)) (users w) = Some usr2 ->
  body_text req1 = Some t1 -> t1 <> "" ->
  body_text req2 = Some t2 -> t2 <> "" ->
  post_at w (params_id req1) = Some p ->
  exists c1 c2 w1 w2,
    route AddComment req1 w =
      ({| status := 200; body := JsonComments (c1 :: comments p) |}, w1) /\
    route AddComment req2 w1 =
      ({| status := 200; body := JsonComments (c2 :: c1 :: comments p) |}, w2) /\
    comment_user c1 = id u1 /\ comment_text c1 = t1 /\
    comment_user c2 = id u2 /\ comment_text c2 = t2 /\
    post_at w2 (params_id req1) = Some (set_comments p (c2 :: c1 :: comments p)).
Proof.
  intros Ha1 Ha2 Hid Hoid1 Hoid2 Hf1 Hf2 Ht1 Hne1 Ht2 Hne2 Hp.
  pose proof (post_at_id _ _ _ Hp) as Hpid.
  set (c1 := {| comment_id := new_object_id (next_oid w); comment_user := id u1;
                comment_name := user_name usr1; comment_avatar := user_avatar usr1;
                comment_text := t1; comment_date := clock w |}).
  set (p1 := set_comments p (c1 :: comments p)).
  set (w1 := set_posts
               (log (UpdatePost (post_id p))
                  (bump_oid (log (ReadPost (params_id req1)) (log (ReadUser (id u1)) w))))
               (map (fun q => if has_id (post_id p) q then p1 else q) (posts w))).
  assert (Hp1 : post_at w1 (params_id req2) = Some p1).
  { rewrite Hid. eapply post_at_saved; [exact Hpid | exact Hp | reflexivity]. }
  set (c2 := {| comment_id := new_object_id (next_oid w1); comment_user := id u2;
                comment_name := user_name usr2; comment_avatar := user_avatar usr2;
                comment_text := t2; comment_date := clock w1 |}).
  exists c1, c2, w1. eexists. split; [|split].
  - rewrite (route_authenticated _ _ _ _ Ha1). simpl handler.
    rewrite (add_comment_run _ u1 w usr1 t1 p) by (try reflexivity; assumption).
    reflexivity.
  - rewrite (route_authenticated _ _ _ _ Ha2). simpl handler.
    rewrite (add_comment_run _ u2 w1 usr2 t2 p1) by (try reflexivity; assumption).
    reflexivity.
  - repeat (split; [reflexivity|]).
    rewrite <- Hid. eapply post_at_saved; [| exact Hp1 | reflexivity].
    simpl. rewrite Hid. exact Hpid.
Qed.

End Router.

(** * Examples for the further properties *)

Section RouterExamples.
Import Fixture.
#[local] Existing Instance Fixture.externals.

Lemma failed_request_writes_nothing_witness :
  status (fst (route LikePost (by_bob "nope" "" None) two_posts)) <> 200 /\
  posts (snd (route LikePost (by_bob "nope" "" None) two_posts)) = posts two_posts.
Proof.
  assert (Hs : status (fst (route LikePost (by_bob "nope" "" None) two_posts)) <> 200).
  { vm_compute. discriminate. }
  split; [exact Hs|].
  apply (failed_request_writes_nothing LikePost (by_bob "nope" "" None) two_posts Hs).
Defined.

Lemma other_posts_untouched_witness :
  post_at (snd (route DeletePost (by_alice post1_upper "" None) busy)) post1 = None /\
  post_at (snd (route DeletePost (by_alice post1_upper "" None) busy)) post2
  = Some bobs_post.
Proof.
  split; [reflexivity|].
  rewrite (other_posts_untouched DeletePost (by_alice post1_upper "" None) busy post2).
  - reflexivity.
  - vm_compute. discriminate.
  - vm_compute. discriminate.
Defined.

Lemma snapshot_never_changes_witness :
  ((DeletePost = DeletePost /\ canonical post1_upper = canonical post1 /\
    post_at (snd (route DeletePost (by_alice post1_upper "" None) busy)) post1 = None) \/
   (exists p',
      post_at (snd (route DeletePost (by_alice post1_upper "" None) busy)) post1 = Some p' /\
      same_snapshot older_post p')) /\
  ((LikePost = DeletePost /\ canonical post1_upper = canonical post1 /\
    post_at (snd (route LikePost (by_bob post1_upper "" None) busy)) post1 = None) \/
   (exists p',
      post_at (snd (route LikePost (by_bob post1_upper "" None) busy)) post1 = Some p' /\
      same_snapshot older_post p')).
Proof.
  split.
  - apply (snapshot_never_changes DeletePost (by_alice post1_upper "" None) busy
             post1 older_post).
    reflexivity.
  - apply (snapshot_never_changes LikePost (by_bob post1_upper "" None) busy
             post1 older_post).
    reflexivity.
Defined.

Lemma likes_unique_served_witness :
  Forall likes_unique
    (posts (serve [(LikePost, by_bob post1 "" None);
                   (LikePost, by_bob post1_upper "" None);
                   (UnlikePost, by_alice post1 "" None);
                   (LikePost, by_alice post2 "" None)] busy)).
Proof.
  apply (likes_unique_served _ busy).
  - intros e req u Hin (t & d & Ht & _ & Hv & Hu).
    simpl in Hin.
    destruct Hin as [[= <- <-] | [[= <- <-] | [[= <- <-] | [[= <- <-] | []]]]];
      simpl in Ht; injection Ht as <-; vm_compute in Hv; injection Hv as <-;
      simpl in Hu; injection Hu as <-; reflexivity.
  - unfold busy, likes_unique. simpl.
    repeat first [ apply Forall_nil_2 | apply Forall_cons_2 | apply NoDup_nil_2
                 | apply NoDup_cons_2 | apply not_elem_of_nil ].
Defined.

Lemma empty_text_rejected_witness :
  route CreatePost (by_bob "" "" (Some "")) plain =
    ({| status := 400; body := JsonErrors ["Text is required"] |}, plain) /\
  route AddComment (by_bob post1 "" None) plain =
    ({| status := 400; body := JsonErrors ["Text is required"] |}, plain).
Proof.
  split.
  - apply (empty_text_rejected CreatePost (by_bob "" "" (Some "")) {| id := bob |} plain).
    + apply by_bob_authenticated.
    + left. reflexivity.
    + right. reflexivity.
  - apply (empty_text_rejected AddComment (by_bob post1 "" None) {| id := bob |} plain).
    + apply by_bob_authenticated.
    + right. reflexivity.
    + left. reflexivity.
Defined.

Lemma delete_post_by_author_witness :
  exists w',
    route DeletePost (by_alice post1 "" None) two_posts
      = ({| status := 200; body := JsonMsg "post removed" |}, w') /\
    post_at w' post1 = None /\
    forall req2 u2,
      authenticated req2 u2 -> params_id req2 = post1 ->
      fst (route GetPost req2 w') = {| status := 404; body := JsonMsg "post not found" |} /\
      fst (route DeletePost req2 w') = {| status := 404; body := JsonMsg "post not found" |}.
Proof.
  apply (delete_post_by_author (by_alice post1 "" None) {| id := alice |}
           two_posts (post_of [] [])).
  - apply by_alice_authenticated.
  - reflexivity.
  - reflexivity.
Defined.

Lemma create_then_delete_witness :
  exists p w1 w2,
    route CreatePost (by_bob "" "" (Some "hello")) two_posts
      = ({| status := 200; body := JsonPost p |}, w1) /\
    post_id p = "0000000000000000000003e8" /\
    route DeletePost (by_bob "0000000000000000000003e8" "" None) w1
      = ({| status := 200; body := JsonMsg "post removed" |}, w2) /\
    posts w2 = posts two_posts.
Proof.
  apply (create_then_delete (by_bob "" "" (Some "hello"))
           (by_bob "0000000000000000000003e8" "" None) {| id := bob |} two_posts
           {| user_id := bob; user_name := "Bob"; user_avatar := "avatar" |} "hello").
  - apply by_bob_authenticated.
  - reflexivity.
  - reflexivity.
  - reflexivity.
  - discriminate.
  - reflexivity.
  - reflexivity.
  - apply by_bob_authenticated.
  - reflexivity.
Defined.

Lemma like_then_unlike_witness :
  exists w1 w2,
    route LikePost (by_bob post1_upper "" None) busy =
      ({| status := 200;
          body := JsonLikes [{| like_user := bob |}; {| like_user := alice |}] |}, w1) /\
    route UnlikePost (by_bob post1_upper "" None) w1 =
      ({| status := 200; body := JsonLikes [{| like_user := alice |}] |}, w2) /\
    post_at w2 post1_upper = Some older_post.
Proof.
  apply (like_then_unlike (by_bob post1_upper "" None) {| id := bob |} busy older_post).
  - apply by_bob_authenticated.
  - reflexivity.
  - reflexivity.
  - reflexivity.
  - reflexivity.
Defined.

Lemma unlike_removes_own_like_witness :
  fst (route UnlikePost (by_alice post1 "" None) liked_by_both)
    = {| status := 200; body := JsonLikes [{| like_user := bob |}] |} /\
  post_at (snd (route UnlikePost (by_alice post1 "" None) liked_by_both)) post1
    = Some (post_of [{| like_user := bob |}] []) /\
  likes_by alice [{| like_user := bob |}] = 0%nat.
Proof.
  apply (unlike_removes_own_like (by_alice post1 "" None) {| id := alice |} liked_by_both
           (post_of [{| like_user := bob |}; {| like_user := alice |}] [])).
  - apply by_alice_authenticated.
  - reflexivity.
  - unfold likes_unique. simpl. apply NoDup_cons. split; [|apply NoDup_singleton].
    intros Hin. apply list_elem_of_In in Hin. simpl in Hin.
    destruct Hin as [Hin|[]]. discriminate.
  - simpl. right. left. reflexivity.
Defined.

Lemma unlike_without_like_removes_last_witness :
  fst (route UnlikePost (by_bob post2 "" None) two_posts)
    = {| status := 200; body := JsonLikes [] |} /\
  post_at (snd (route UnlikePost (by_bob post2 "" None) two_posts)) post2
    = Some (set_likes bobs_post []).
Proof.
  apply (unlike_without_like_removes_last (by_bob post2 "" None) {| id := bob |}
           two_posts bobs_post).
  - apply by_bob_authenticated.
  - reflexivity.
  - simpl. intros [Hin|[]]. discriminate.
Defined.

Lemma delete_comment_answer_witness :
  (exists l1 x l2,
     [comment_of comment1 bob "first" 1; second_comment] = l1 ++ x :: l2 /\
     comment_user x = alice /\ ~ In alice (map comment_user l1) /\
     fst (route DeleteComment (by_alice post1 comment2 None) bob_then_alice)
       = {| status := 200; body := JsonComments (l1 ++ l2) |}) /\
  fst (route DeleteComment (by_alice post1 comment2 None) bob_then_alice)
    = {| status := 200; body := JsonComments [comment_of comment1 bob "first" 1] |}.
Proof.
  destruct (delete_comment_answer (by_alice post1 comment2 None) {| id := alice |}
              bob_then_alice
              (post_of [] [comment_of comment1 bob "first" 1; second_comment])
              second_comment (by_alice_authenticated _ _ _) eq_refl eq_refl eq_refl)
    as [Hfirst Htarget].
  split; [exact Hfirst|].
  apply (Htarget [comment_of comment1 bob "first" 1] []).
  - reflexivity.
  - simpl. intros [Hin|[]]. discriminate.
Defined.


Lemma token_without_user_witness :
  (fst (@route no_user_claim LikePost (forged post1) plain)
     = {| status := 500; body := Text "Server Error" |} /\
   posts (snd (@route no_user_claim LikePost (forged post1) plain)) = posts plain) /\
  fst (@route no_user_claim GetPost (forged post1) plain)
    = {| status := 200; body := JsonPost (post_of [] []) |} /\
  fst (@route no_user_claim DeletePost (forged post1) plain)
    = {| status := 500; body := Text "Server Error" |} /\
  posts (snd (@route no_user_claim DeletePost (forged post1) plain)) = posts plain.
Proof.
  destruct (@token_without_user no_user_claim (forged post1) plain "garbage"
              {| decoded_user := None |} eq_refl ltac:(discriminate) eq_refl eq_refl)
    as [Hwrite Hread].
  split.
  - apply (Hwrite LikePost). left. reflexivity.
  - apply (Hread (post_of [] [])). reflexivity.
Defined.

Lemma create_then_list_witness :
  exists p w1,
    route CreatePost (by_bob "" "" (Some "hello")) plain
      = ({| status := 200; body := JsonPost p |}, w1) /\
    forall req2 u2,
      authenticated req2 u2 ->
      exists ps,
        fst (route ListPosts req2 w1) = {| status := 200; body := JsonPosts ps |} /\
        In p ps /\ Permutation ps (posts plain ++ [p]).
Proof.
  apply (create_then_list (by_bob "" "" (Some "hello")) {| id := bob |} plain
           {| user_id := bob; user_name := "Bob"; user_avatar := "avatar" |} "hello").
  - apply by_bob_authenticated.
  - reflexivity.
  - reflexivity.
  - reflexivity.
  - discriminate.
  - reflexivity.
Defined.

Lemma read_endpoints_write_nothing_witness :
  posts (snd (route GetPost (by_bob post1 "" None) two_posts)) = posts two_posts.
Proof.
  apply (read_endpoints_write_nothing GetPost (by_bob post1 "" None) two_posts).
  right. left. reflexivity.
Defined.

Lemma comments_stack_witness :
  exists c1 c2 w1 w2,
    route AddComment (by_bob post1 "" (Some "one")) plain =
      ({| status := 200; body := JsonComments [c1] |}, w1) /\
    route AddComment (by_alice post1 "" (Some "two")) w1 =
      ({| status := 200; body := JsonComments [c2; c1] |}, w2) /\
    comment_user c1 = bob /\ comment_text c1 = "one" /\
    comment_user c2 = alice /\ comment_text c2 = "two" /\
    post_at w2 post1 = Some (set_comments (post_of [] []) [c2; c1]).
Proof.
  apply (comments_stack (by_bob post1 "" (Some "one")) (by_alice post1 "" (Some "two"))
           {| id := bob |} {| id := alice |}
           {| user_id := bob; user_name := "Bob"; user_avatar := "avatar" |}
           {| user_id := alice; user_name := "Alice"; user_avatar := "avatar" |}
           "one" "two" plain (post_of [] [])).
  - apply by_bob_authenticated.
  - apply by_alice_authenticated.
  - reflexivity.
  - reflexivity.
  - reflexivity.
  - reflexivity.
  - reflexivity.
  - reflexivity.
  - discriminate.
  - reflexivity.
  - discriminate.
  - reflexivity.
Defined.

(** ** Ids in another spelling, ids that are no ObjectId *)

(** A path id with its letters in upper case casts to the ObjectId of the
    stored post: GET answers with the post, and DELETE by the author removes
    it. *)
Example path_id_in_upper_case :
  fst (route GetPost (by_bob post1_upper "" None) busy)
    = {| status := 200; body := JsonPost older_post |} /\
  fst (route DeletePost (by_alice post1_upper "" None) busy)
    = {| status := 200; body := JsonMsg "post removed" |} /\
  posts (snd (route DeletePost (by_alice post1_upper "" None) busy))
    = [newest_post; bobs_post].
Proof. repeat split; reflexivity. Qed.

(** A token whose id is bob's with its letters in upper case: the stored
    like prints in lower case, the test of the next like compares it with
    the id as the token has it and misses, and the post ends with two likes
    of bob. *)
Example like_twice_in_upper_case :
  let req := request (Some (token_of "00000000000000000000000B")) post1 "" None in
  fst (route LikePost req busy)
    = {| status := 200;
         body := JsonLikes [{| like_user := bob |}; {| like_user := alice |}] |} /\
  fst (route LikePost req (snd (route LikePost req busy)))
    = {| status := 200;
         body := JsonLikes [{| like_user := bob |}; {| like_user := bob |};
                            {| like_user := alice |}] |}.
Proof. split; reflexivity. Qed.

(** A token whose id is no ObjectId: the like is refused by [save], the
    answer is 500 and nothing is written. *)
Example like_with_uncastable_id :
  route LikePost (request (Some (token_of "zz")) post1 "" None) busy
    = ({| status := 500; body := Text "Server Error" |}, log (ReadPost post1) busy).
Proof. reflexivity. Qed.

End RouterExamples.
